(** * chatuino: emote lookup, FFZ provider client and sixel display manager

    A shallow embedding of three packages of the repository:
    - [emote]    (src/emote/emote.go): the [Emote] value and the linear
      [EmoteSet.GetByText] lookup;
    - [ffz]      (src/twitch/ffz/api.go and its types file): [doRequest],
      [GetGlobalEmotes], [APIError];
    - [sixelimg] (the sixel display manager): [Convert] with its session cache,
      its persistent cache ([cacheDecodedImage] / [openCached]) and
      [CleanupOldImagesCommand].

    Go strings are byte strings and are modelled by [string]; [[]byte] is
    [list byte] and the two conversions are written out.  Go's [int] is the
    64-bit integer of the supported platforms. *)

From Stdlib Require Import ZArith Lia.
From Stdlib Require Import Strings.Byte Strings.Ascii Strings.String.
From stdpp Require Import base gmap strings list fin_maps.

#[local] Set Warnings "-clear-no-such-hyp".

Local Open Scope string_scope.
Local Open Scope Z_scope.
Local Open Scope list_scope.

(** ** Package emote *)
Module emote.

Inductive Platform := Unknown | Twitch | SevenTV | BTTV | FFZ.


(** The field [Platform] of the Go struct is [Platform'] here: a projection
    cannot share the name of its type. *)
Record Emote := {
  ID : string;
  Text : string;
  Platform' : Platform;
  URL : string;
  IsAnimated : bool;
  Format : string;
  TTVEmoteType : string;
}.

(** [Emote{}] *)
Definition Emote_zero : Emote :=
  {| ID := ""; Text := ""; Platform' := Unknown; URL := "";
     IsAnimated := false; Format := ""; TTVEmoteType := "" |}.

Definition EmoteSet := list Emote.

(** [for e := range slices.Values(set)]: the slice in index order. *)
Fixpoint GetByText (set : EmoteSet) (text : string) : Emote * bool :=
  match set with
  | [] => (Emote_zero, false)
  | e :: rest =>
      if String.eqb (Text e) text then (e, true) else GetByText rest text
  end.

End emote.

(** ** net/http, as far as [doRequest] uses it *)
Module http.

Record Request := {
  Method : string;
  URL : string;
  ReqBody : option (list byte);
}.

(** A response as [doRequest] consumes it: the status line and the outcome of
    [io.ReadAll(resp.Body)] (the bytes, or the message of the read error). *)
Record Response := {
  StatusCode : Z;
  Status : string;
  Body : string + list byte;
}.

End http.

(** ** strconv *)
Module strconv.

Definition maxInt : Z := 2 ^ 63 - 1.
Definition minInt : Z := - 2 ^ 63.

Definition digit (c : Ascii.ascii) : option Z :=
  let n := Z.of_N (Ascii.N_of_ascii c) in
  if (48 <=? n) && (n <=? 57) then Some (n - 48) else None.

(** The digit loop of [ParseUint] in base 10: a byte that is not a decimal
    digit is a syntax error. *)
Fixpoint digits (s : string) (n : Z) : option Z :=
  match s with
  | EmptyString => Some n
  | String c r =>
      match digit c with
      | Some d => digits r (n * 10 + d)
      | None => None
      end
  end.

(** [strconv.Atoi] for the 64-bit [int]: an optional sign, at least one
    decimal digit, nothing else, and a value that fits.  [None] stands for the
    [*NumError] ([ErrSyntax] or [ErrRange]); callers only test [err != nil]. *)
Definition Atoi (s : string) : option Z :=
  let '(neg, body) :=
    match s with
    | String "-"%char r => (true, r)
    | String "+"%char r => (false, r)
    | _ => (false, s)
    end in
  match body with
  | EmptyString => None
  | _ =>
      match digits body 0 with
      | None => None
      | Some un =>
          let n := if neg : bool then - un else un in
          if (minInt <=? n) && (n <=? maxInt) then Some n else None
      end
  end.

End strconv.

(** ** Package ffz *)
Module ffz.

Definition baseURL : string := "https://api.frankerfacez.com/v1".

Record APIError := {
  StatusCode : Z;   (* json:"-" *)
  Status : string;  (* json:"-" *)
  Message : string; (* json:"message" *)
}.

Record Emote := {
  ID : Z;
  Name : string;
  Height : Z;
  Width : Z;
  Modifier : bool;
  URLs : gmap string string;
}.

(** The field [ID] of [emoteSet] is [emoteSet_ID]: [ID] is taken by [Emote]. *)
Record emoteSet := {
  emoteSet_ID : Z;
  Emoticons : list Emote;
}.

Record globalResponse := {
  DefaultSets : list Z;
  Sets : gmap string emoteSet;
}.

(** Go's [error] values as they arise in this package, by origin. *)
Inductive error :=
| ErrNewRequest (msg : string)  (* http.NewRequestWithContext *)
| ErrDo (msg : string)          (* api.client.Do *)
| ErrReadAll (msg : string)     (* io.ReadAll *)
| ErrUnmarshal (msg : string)   (* json.Unmarshal *)
| ErrAPI (e : APIError).        (* the package's own APIError *)

(** [API] holds the [*http.Client]; the client is its [Do] method: the
    response or the transport error the network gives for a request. *)
Record API := {
  client : http.Request → string + http.Response;
}.

(** The library functions the package calls and the repository does not
    define.  Each JSON decoder returns the decoded value or the message of the
    [encoding/json] error. *)
Class Externals := {
  (** [http.NewRequestWithContext(ctx, method, url, body)] *)
  http_NewRequestWithContext :
    string → string → option (list byte) → string + http.Request;
  (** [json.Unmarshal] into a fresh [globalResponse] *)
  json_Unmarshal_globalResponse : list byte → string + globalResponse;
  (** What [json.Unmarshal] finds for the one decodable field of [APIError]:
      the value of key [message], or [None] when the object has no such key
      (or it is null). *)
  json_Unmarshal_message : list byte → string + option string;
}.

Section WithExternals.
Context `{Ext : Externals}.

(** [json.Unmarshal(respBody, &errResp)]: [StatusCode] and [Status] carry the
    tag [json:"-"] and are never written; [Message] is written when present. *)
Definition json_Unmarshal_APIError (respBody : list byte) (errResp : APIError)
  : string + APIError :=
  match json_Unmarshal_message respBody with
  | inl msg => inl msg
  | inr None => inr errResp
  | inr (Some m) =>
      inr {| StatusCode := StatusCode errResp; Status := Status errResp;
             Message := m |}
  end.

(** [doRequest[T]]; [unmarshal] is [json.Unmarshal] at the type [T].  The
    [data] Go returns next to a non-nil error is dropped: no caller reads it. *)
Definition doRequest {T : Type} (unmarshal : list byte → string + T)
    (api : API) (method url : string) (body : option (list byte)) : error + T :=
  let url := baseURL +:+ url in
  match http_NewRequestWithContext method url body with
  | inl msg => inl (ErrNewRequest msg)
  | inr req =>
      match client api req with
      | inl msg => inl (ErrDo msg)
      | inr resp =>
          match http.Body resp with
          | inl msg => inl (ErrReadAll msg)
          | inr respBody =>
              if (http.StatusCode resp <? 200) || (http.StatusCode resp >=? 300)
              then
                let errResp :=
                  {| StatusCode := http.StatusCode resp;
                     Status := http.Status resp;
                     Message := "" |} in
                match json_Unmarshal_APIError respBody errResp with
                | inl msg => inl (ErrUnmarshal msg)
                | inr errResp => inl (ErrAPI errResp)
                end
              else
                match unmarshal respBody with
                | inl msg => inl (ErrUnmarshal msg)
                | inr data => inr data
                end
          end
      end
  end.

(** [for _, id := range resp.DefaultSets { defaultSets[id] = struct{}{} }] *)
Definition makeDefaultSets (ids : list Z) : gset Z :=
  fold_left (λ defaultSets id, {[id]} ∪ defaultSets) ids ∅.

(** The body of [for idStr, set := range resp.Sets]. *)
Definition appendDefaultSet (defaultSets : gset Z) (emotes : list Emote)
    (entry : string * emoteSet) : list Emote :=
  let '(idStr, set) := entry in
  match strconv.Atoi idStr with
  | None => emotes
  | Some id =>
      if decide (id ∈ defaultSets) then emotes ++ Emoticons set else emotes
  end.

(** [GetGlobalEmotes].  Go visits the entries of a map in an order of its own
    choosing; [rangeSets] is that order for the call. *)
Definition GetGlobalEmotes (a : API)
    (rangeSets : gmap string emoteSet → list (string * emoteSet))
  : error + list Emote :=
  match doRequest json_Unmarshal_globalResponse a "GET" "/set/global" None with
  | inl err => inl err
  | inr resp =>
      let defaultSets := makeDefaultSets (DefaultSets resp) in
      inr (fold_left (appendDefaultSet defaultSets) (rangeSets (Sets resp)) [])
  end.

End WithExternals.

End ffz.

(** ** Go's error values, as the display manager meets them *)
Module errors.

Inductive error :=
| ErrNotExist                            (* afero.ErrFileNotFound, os.ErrNotExist *)
| ErrExist                               (* fs.ErrExist *)
| ErrNew (msg : string)                  (* errors.New(msg); a library's own error *)
| ErrWrap (msg : string) (err : error).  (* fmt.Errorf(msg + ": %w", err) *)

#[global] Instance error_eq_dec : EqDecision error.
Proof. solve_decision. Defined.

(** [errors.Is]: equal to the target, or wrapping an error that is. *)
Fixpoint Is (err target : error) : bool :=
  if decide (err = target) then true
  else match err with
       | ErrWrap _ inner => Is inner target
       | _ => false
       end.

End errors.

(** ** afero.Fs

    The file system behind the display manager, modelled as afero's in-memory
    file system (the one the package's tests use): regular files by path and
    the directories made so far.  A real file system can refuse any operation;
    [fault] says which ones this one refuses, and with which error. *)
Module afero.
Import errors.

Inductive Op :=
| OpMkdirAll (path : string)
| OpCreate (name : string)
| OpWrite (name : string)
| OpReadFile (name : string).

Record Fs := {
  files : gmap string (list byte);
  dirs : gset string;
  fault : Op → option error;
}.

(** State passing over the file system. *)
Definition F (A : Type) : Type := Fs → A * Fs.

#[global] Instance F_ret : MRet F := λ A a fs, (a, fs).
#[global] Instance F_bind : MBind F :=
  λ A B k m fs, let '(a, fs') := m fs in k a fs'.

Definition MkdirAll (path : string) : F (option error) := λ fs,
  match fault fs (OpMkdirAll path) with
  | Some err => (Some err, fs)
  | None =>
      (None, {| files := files fs; dirs := {[path]} ∪ dirs fs; fault := fault fs |})
  end.

(** [fs.Create(name)]: the file is created or truncated; the handle is the
    name. *)
Definition Create (name : string) : F (error + string) := λ fs,
  match fault fs (OpCreate name) with
  | Some err => (inl err, fs)
  | None =>
      (inr name,
       {| files := <[name := []]> (files fs); dirs := dirs fs; fault := fault fs |})
  end.

(** [file.Write(b)] on a handle from [Create]: appends after what the handle
    wrote before. *)
Definition Write (file : string) (b : list byte) : F (option error) := λ fs,
  match fault fs (OpWrite file) with
  | Some err => (Some err, fs)
  | None =>
      (None,
       {| files := <[file := default [] (files fs !! file) ++ b]> (files fs);
          dirs := dirs fs; fault := fault fs |})
  end.

(** [afero.ReadFile(fs, name)] *)
Definition ReadFile (name : string) : F (error + list byte) := λ fs,
  match fault fs (OpReadFile name) with
  | Some err => (inl err, fs)
  | None =>
      match files fs !! name with
      | Some data => (inr data, fs)
      | None => (inl ErrNotExist, fs)
      end
  end.

End afero.

(** ** Package kittyimg *)
Module kittyimg.
Import errors.

(** Modelled from the spec: package kittyimg is not among the sources; a
    [DisplayUnit] has a directory, a canonical ID, an animation flag, a
    right-padding hint and a lazy byte loader, under the field names the
    display manager reads.  The loader is a closure: it runs in the world
    outside the program and may change it. *)
Record DisplayUnit {World : Type} := {
  ID : string;
  Directory : string;
  IsAnimated : bool;
  RightPadding : Z;
  Load : World → (error + list byte * string) * World;
}.
Arguments DisplayUnit : clear implicits.

(** Modelled from the spec: package kittyimg is not among the sources; the
    payload has a prepare command and a replacement text. *)
Record KittyDisplayUnit := {
  PrepareCommand : string;
  ReplacementText : string;
}.

(** [KittyDisplayUnit{}] *)
Definition KittyDisplayUnit_zero : KittyDisplayUnit :=
  {| PrepareCommand := ""; ReplacementText := "" |}.

End kittyimg.

(** ** time *)
Module time.

(** A [time.Time] is the instant in nanoseconds; a [time.Duration] is an
    [int64] count of nanoseconds. *)
Definition maxDuration : Z := 2 ^ 63 - 1.
Definition minDuration : Z := - 2 ^ 63.

(** [t.Sub(u)]: the difference, saturated to the range of [Duration]. *)
Definition Sub (t u : Z) : Z :=
  let d := t - u in
  if d <? minDuration then minDuration
  else if maxDuration <? d then maxDuration
  else d.

(** [time.Since(t)] when the clock reads [now]. *)
Definition Since (now t : Z) : Z := Sub now t.

End time.

(** ** Package sixelimg *)
Module sixelimg.
Import errors afero.

Record DecodedImage := {
  ID : Z;             (* int32, json:"-" *)
  Cols : Z;           (* json:"cols" *)
  SixelData : string; (* json:"sixel_data" *)
  lastUsed : Z;       (* time.Time, json:"-" *)
}.

(** [DecodedImage{}] *)
Definition DecodedImage_zero : DecodedImage :=
  {| ID := 0; Cols := 0; SixelData := ""; lastUsed := 0 |}.

(** The anonymous metadata struct of [cacheDecodedImage] and [openCached]. *)
Record meta := {
  meta_Cols : Z;        (* json:"cols" *)
  EncodedPath : string; (* json:"encoded_path" *)
}.

(** What [globalPlacedImages] (a [syncmap.Map], values of type [any]) can
    hold: a [DecodedImage], or a value of some other dynamic type. *)
Inductive any :=
| anyDecodedImage (i : DecodedImage)
| anyOther (type : string).

Inductive Level := Info | Warn | Error.

(** What a call does to the outside, in the order it happens: invocations of
    a unit's loader and log records. *)
Inductive Event :=
| EvLoad (id : string)
| EvLog (lvl : Level) (msg : string) (err : option error).

(** The decoders, the encoder, the codecs and the path functions the package
    imports.  A library call that can fail returns the message of its error
    on the left. *)
Class Externals := {
  Image : Type;
  float32 : Type;
  (** [filepath.Join(elem...)], [filepath.Clean(path)], [xdg.DataHome] *)
  filepath_Join : list string → string;
  filepath_Clean : string → string;
  xdg_DataHome : string;
  (** [zlib.NewWriter(&buf)], [w.Write(p)], [w.Close()]: the bytes left in the
      buffer *)
  zlib_compress : list byte → list byte;
  (** [zlib.NewReader(r)] followed by [io.ReadAll] *)
  zlib_decompress : list byte → string + list byte;
  (** [json.NewEncoder(f).Encode(meta)]: the bytes handed to [f.Write] *)
  json_Encode_meta : meta → list byte;
  (** [json.Unmarshal(data, &meta)] into a zero [meta] *)
  json_Unmarshal_meta : list byte → string + meta;
  (** [avif.DecodeAll], [awebp.DecodeAll]: the frames *)
  avif_DecodeAll : list byte → string + list Image;
  awebp_DecodeAll : list byte → string + list Image;
  (** [gif.DecodeAll]: the frames, [Config.Width] and [Config.Height] *)
  gif_DecodeAll : list byte → string + list Image * Z * Z;
  (** [image.Decode]: the format name and the image or the error *)
  image_Decode : list byte → string * (string + Image);
  (** [img.Bounds().Dx()], [img.Bounds().Dy()] *)
  Bounds_Dx : Image → Z;
  Bounds_Dy : Image → Z;
  (** [image.NewRGBA(image.Rect(0, 0, w, h))] *)
  image_NewRGBA : Z → Z → Image;
  (** [imgdraw.Draw(dst, src.Bounds(), src, src.Bounds().Min, op)]; [true]
      is [imgdraw.Over], [false] is [imgdraw.Src] *)
  imgdraw_Draw : Image → Image → bool → Image;
  (** [draw.CatmullRom.Scale(dst, dst.Bounds(), src, src.Bounds(), draw.Over, nil)] *)
  draw_CatmullRom_Scale : Image → Image → Image;
  (** [sixel.NewEncoder(&buf)] with [Dither], [enc.Encode(img)], [buf.String()] *)
  sixel_Encode : Image → string + string;
  (** [float32(n)], [x / y], [x * y], [int(x)], [int(math.Round(float64(x)))],
      [int(math.Ceil(float64(x)))] *)
  float32_of_int : Z → float32;
  float32_div : float32 → float32 → float32;
  float32_mul : float32 → float32 → float32;
  int_of_float32 : float32 → Z;
  int_Round : float32 → Z;
  int_Ceil : float32 → Z;
}.

Section WithExternals.
Context `{Ext : Externals} {World : Type}.

Abbreviation DisplayUnit := (kittyimg.DisplayUnit World).

Record DisplayManager := {
  cellWidth : float32;
  cellHeight : float32;
}.

(** Everything a call can read or change: the two package globals, the file
    system behind [d.fs], the world the loaders run in, and the events so far
    (newest first). *)
Record State := {
  globalPlacedImages : gmap string any;
  globalImagePlacementIDCounter : Z;
  disk : Fs;
  world : World;
  trace : list Event;
}.

Definition M (A : Type) : Type := State → A * State.

#[global] Instance M_ret : MRet M := λ A a s, (a, s).
#[global] Instance M_bind : MBind M :=
  λ A B k m s, let '(a, s') := m s in k a s'.

Definition setPlaced (m : gmap string any) (s : State) : State :=
  {| globalPlacedImages := m;
     globalImagePlacementIDCounter := globalImagePlacementIDCounter s;
     disk := disk s; world := world s; trace := trace s |}.

(** [globalPlacedImages.Load / Delete / Store / Swap] *)
Definition placed_Load (key : string) : M (option any) := λ s,
  (globalPlacedImages s !! key, s).
Definition placed_Delete (key : string) : M () := λ s,
  ((), setPlaced (delete key (globalPlacedImages s)) s).
Definition placed_Store (key : string) (value : any) : M () := λ s,
  ((), setPlaced (<[key := value]> (globalPlacedImages s)) s).
Definition placed_Swap (key : string) (value : any) : M (option any) := λ s,
  (globalPlacedImages s !! key,
   setPlaced (<[key := value]> (globalPlacedImages s)) s).

(** [atomic.Int32.Add(delta)]: the new value, wrapped to 32 bits. *)
Definition wrap32 (n : Z) : Z := (n + 2 ^ 31) mod 2 ^ 32 - 2 ^ 31.
Definition counter_Add (delta : Z) : M Z := λ s,
  let n := wrap32 (globalImagePlacementIDCounter s + delta) in
  (n, {| globalPlacedImages := globalPlacedImages s;
         globalImagePlacementIDCounter := n;
         disk := disk s; world := world s; trace := trace s |}).

Definition emit (ev : Event) : M () := λ s,
  ((), {| globalPlacedImages := globalPlacedImages s;
          globalImagePlacementIDCounter := globalImagePlacementIDCounter s;
          disk := disk s; world := world s; trace := ev :: trace s |}).

(** [log.Logger.<Level>().Err(err)...Msg(msg)] *)
Definition log (lvl : Level) (msg : string) (err : option error) : M () :=
  emit (EvLog lvl msg err).

(** Run a file-system action on [d.fs]. *)
Definition onDisk {A : Type} (act : F A) : M A := λ s,
  let '(a, fs') := act (disk s) in
  (a, {| globalPlacedImages := globalPlacedImages s;
         globalImagePlacementIDCounter := globalImagePlacementIDCounter s;
         disk := fs'; world := world s; trace := trace s |}).

(** [unit.Load()]: the invocation is recorded, the closure runs. *)
Definition callLoad (unit : DisplayUnit) : M (error + list byte * string) := λ s,
  let '(r, w') := kittyimg.Load unit (world s) in
  (r, {| globalPlacedImages := globalPlacedImages s;
         globalImagePlacementIDCounter := globalImagePlacementIDCounter s;
         disk := disk s; world := w';
         trace := EvLoad (kittyimg.ID unit) :: trace s |}).

Definition withIDandLastUsed (id now : Z) (i : DecodedImage) : DecodedImage :=
  {| ID := id; Cols := Cols i; SixelData := SixelData i; lastUsed := now |}.

Definition withLastUsed (now : Z) (i : DecodedImage) : DecodedImage :=
  withIDandLastUsed (ID i) now i.

(** [BaseImageDirectory = filepath.Join(xdg.DataHome, "chatuino")] *)
Definition BaseImageDirectory : string := filepath_Join [xdg_DataHome; "chatuino"].

(** [filepath.Join(BaseImageDirectory, "sixel", dir)] *)
Definition cacheDirectory (dir : string) : string :=
  filepath_Join [BaseImageDirectory; "sixel"; dir].

Definition createGetCacheDirectory (dir : string) : F (string * option error) :=
  let path := cacheDirectory dir in
  err ← MkdirAll path;
  match err with
  | Some err =>
      if Is err ErrExist then mret (path, None) else mret ("", Some err)
  | None => mret (path, None)
  end.

(** [filepath.Join(cacheDir, fmt.Sprintf("%s.sixel.json", filepath.Clean(id)))]
    and the same with [".sixel.zlib"]. *)
Definition metaImageFilePath (cacheDir id : string) : string :=
  filepath_Join [cacheDir; filepath_Clean id +:+ ".sixel.json"].
Definition compressedPath (cacheDir id : string) : string :=
  filepath_Join [cacheDir; filepath_Clean id +:+ ".sixel.zlib"].

(** [cacheDecodedImage].  Compressing into a [bytes.Buffer] cannot fail, so
    the two error returns of the zlib writer are never taken. *)
Definition cacheDecodedImage (decoded : DecodedImage) (unit : DisplayUnit)
  : F (option error) :=
  '(cacheDir, err) ← createGetCacheDirectory (kittyimg.Directory unit);
  match err with
  | Some err => mret (Some err)
  | None =>
      f ← Create (metaImageFilePath cacheDir (kittyimg.ID unit));
      match f with
      | inl err => mret (Some err)
      | inr f =>
          let buf := zlib_compress (list_byte_of_string (SixelData decoded)) in
          let compressedPath := compressedPath cacheDir (kittyimg.ID unit) in
          compressedFile ← Create compressedPath;
          match compressedFile with
          | inl err => mret (Some err)
          | inr compressedFile =>
              err ← Write compressedFile buf;
              match err with
              | Some err => mret (Some err)
              | None =>
                  let meta :=
                    {| meta_Cols := Cols decoded; EncodedPath := compressedPath |} in
                  Write f (json_Encode_meta meta)
              end
          end
      end
  end.

(** [openCached]: the image, the found flag and the error, as Go returns them. *)
Definition openCached (unit : DisplayUnit)
  : F (DecodedImage * bool * option error) :=
  '(dir, err) ← createGetCacheDirectory (kittyimg.Directory unit);
  match err with
  | Some err => mret (DecodedImage_zero, false, Some err)
  | None =>
      data ← ReadFile (metaImageFilePath dir (kittyimg.ID unit));
      match data with
      | inl err =>
          if Is err ErrNotExist then mret (DecodedImage_zero, false, None)
          else mret (DecodedImage_zero, false, Some err)
      | inr data =>
          match json_Unmarshal_meta data with
          | inl msg => mret (DecodedImage_zero, false, Some (ErrNew msg))
          | inr meta =>
              compressedData ← ReadFile (EncodedPath meta);
              match compressedData with
              | inl err => mret (DecodedImage_zero, false, Some err)
              | inr compressedData =>
                  match zlib_decompress compressedData with
                  | inl msg => mret (DecodedImage_zero, false, Some (ErrNew msg))
                  | inr sixelData =>
                      mret ({| ID := 0; Cols := meta_Cols meta;
                               SixelData := string_of_list_byte sixelData;
                               lastUsed := 0 |}, true, None)
                  end
              end
          end
      end
  end.

Definition addRightPadding (img : Image) (padding : Z) : Image :=
  let newWidth := Bounds_Dx img + padding in
  let newHeight := Bounds_Dy img in
  let padded := image_NewRGBA newWidth newHeight in
  imgdraw_Draw padded img false.

Definition imageToSixel (img : Image) : error + string :=
  match sixel_Encode img with
  | inl msg => inl (ErrNew msg)
  | inr s => inr s
  end.

Definition convertSingleImage (d : DisplayManager) (img : Image)
    (unit : DisplayUnit) : error + DecodedImage :=
  let height := Bounds_Dy img in
  let width := Bounds_Dx img in
  let '(img, width) :=
    if 0 <? kittyimg.RightPadding unit
    then let img := addRightPadding img (kittyimg.RightPadding unit) in
         (img, Bounds_Dx img)
    else (img, width) in
  let ratio := float32_div (cellHeight d) (float32_of_int height) in
  let newWidth := int_Round (float32_mul (float32_of_int width) ratio) in
  let newHeight := int_of_float32 (cellHeight d) in
  let resized := draw_CatmullRom_Scale (image_NewRGBA newWidth newHeight) img in
  let cols := int_Ceil (float32_div (float32_of_int newWidth) (cellWidth d)) in
  match imageToSixel resized with
  | inl err => inl (ErrWrap "failed to encode sixel" err)
  | inr sixelData =>
      inr {| ID := 0; Cols := cols; SixelData := sixelData; lastUsed := 0 |}
  end.

(** The first frame of a decoded animation, or the "no frames" error. *)
Definition firstFrame (d : DisplayManager) (unit : DisplayUnit)
    (frames : list Image) (noFrames : string) (prepare : Image → Image)
  : error + DecodedImage :=
  match frames with
  | frame :: _ => convertSingleImage d (prepare frame) unit
  | [] => inl (ErrNew noFrames)
  end.

(** [convertImageBytes] touches nothing but the logger: its result, and the
    log records it writes (newest first). *)
Definition convertImageBytes (d : DisplayManager) (r : list byte)
    (unit : DisplayUnit) (contentType : string)
  : (error + DecodedImage) * list Event :=
  if decide (contentType = "image/avif") then
    match avif_DecodeAll r with
    | inl msg => (inl (ErrWrap "failed to convert avif" (ErrNew msg)), [])
    | inr images => (firstFrame d unit images "avif has no frames" id, [])
    end
  else if kittyimg.IsAnimated unit && bool_decide (contentType = "image/webp") then
    match awebp_DecodeAll r with
    | inl msg => (inl (ErrWrap "failed to convert animated webp" (ErrNew msg)), [])
    | inr images => (firstFrame d unit images "webp has no frames" id, [])
    end
  else if kittyimg.IsAnimated unit && bool_decide (contentType = "image/gif") then
    match gif_DecodeAll r with
    | inl msg => (inl (ErrWrap "failed to convert animated gif" (ErrNew msg)), [])
    | inr (images, configWidth, configHeight) =>
        (firstFrame d unit images "gif has no frames" (λ frame,
           let '(width, height) :=
             if (configWidth =? 0) || (configHeight =? 0)
             then (Bounds_Dx frame, Bounds_Dy frame)
             else (configWidth, configHeight) in
           imgdraw_Draw (image_NewRGBA width height) frame true), [])
    end
  else
    let warned :=
      if kittyimg.IsAnimated unit
      then [EvLog Warn "animated format not fully supported for sixel, using first frame" None]
      else [] in
    match image_Decode r with
    | (format, inl msg) =>
        (inl (ErrWrap ("failed to convert " +:+ format) (ErrNew msg)),
         EvLog Error "" (Some (ErrNew msg)) :: warned)
    | (_, inr img) => (convertSingleImage d img unit, warned)
    end.

(** Hand the records of a call to the logger. *)
Definition logged {A : Type} (call : A * list Event) : M A := λ s,
  (call.1, {| globalPlacedImages := globalPlacedImages s;
              globalImagePlacementIDCounter := globalImagePlacementIDCounter s;
              disk := disk s; world := world s;
              trace := call.2 ++ trace s |}).

Definition payload (sixelData : string) : kittyimg.KittyDisplayUnit :=
  {| kittyimg.PrepareCommand := ""; kittyimg.ReplacementText := sixelData |}.

(** [Convert], third stage ("3rd: image was not downloaded yet, download and
    convert and save"). *)
Definition Convert_cold (d : DisplayManager) (now : Z) (unit : DisplayUnit)
    (incrementID : Z) : M (kittyimg.KittyDisplayUnit * option error) :=
  loaded ← callLoad unit;
  match loaded with
  | inl err => mret (kittyimg.KittyDisplayUnit_zero, Some err)
  | inr (imageBody, contentType) =>
      log Info "downloaded image for sixel" None;;
      decoded ← logged (convertImageBytes d imageBody unit contentType);
      match decoded with
      | inl err =>
          log Error "" (Some err);;
          mret (kittyimg.KittyDisplayUnit_zero, Some err)
      | inr decoded =>
          let decoded := withIDandLastUsed incrementID now decoded in
          placed_Store (kittyimg.ID unit) (anyDecodedImage decoded);;
          err ← onDisk (cacheDecodedImage decoded unit);
          match err with
          | Some err => log Warn "failed to cache decoded image" (Some err)
          | None => mret ()
          end;;
          mret (payload (SixelData decoded), None)
      end
  end.

(** [Convert], second stage ("2nd: image was not placed in session yet, but
    is already cached on FS"), falling through to the third. *)
Definition Convert_uncached (d : DisplayManager) (now : Z) (unit : DisplayUnit)
  : M (kittyimg.KittyDisplayUnit * option error) :=
  incrementID ← counter_Add 1;
  '(cachedDecoded, found, err) ← onDisk (openCached unit);
  match err with
  | Some err => log Warn "failed to open cached image, will re-download" (Some err)
  | None => mret ()
  end;;
  if found : bool then
    let cachedDecoded := withIDandLastUsed incrementID now cachedDecoded in
    placed_Store (kittyimg.ID unit) (anyDecodedImage cachedDecoded);;
    mret (payload (SixelData cachedDecoded), None)
  else Convert_cold d now unit incrementID.

(** [Convert]; [now] is what [time.Now()] reads during the call (each path
    reads the clock at most once).  First stage ("1st: image was already
    placed in this session, reusing cached sixel"), falling through to the
    second. *)
Definition Convert (d : DisplayManager) (now : Z) (unit : DisplayUnit)
  : M (kittyimg.KittyDisplayUnit * option error) :=
  cached ← placed_Load (kittyimg.ID unit);
  match cached with
  | Some (anyDecodedImage i) =>
      let i := withLastUsed now i in
      placed_Swap (kittyimg.ID unit) (anyDecodedImage i);;
      mret (payload (SixelData i), None)
  | Some (anyOther _) =>
      log Error "unexpected type in session cache" None;;
      placed_Delete (kittyimg.ID unit);;
      Convert_uncached d now unit
  | None => Convert_uncached d now unit
  end.

(** The function [CleanupOldImagesCommand] hands to [Range]. *)
Definition cleanupEntry (now maxAge : Z) (key : string) (value : any)
    (placed : gmap string any) : gmap string any :=
  match value with
  | anyDecodedImage c =>
      if maxAge <? time.Since now (lastUsed c) then delete key placed else placed
  | anyOther _ => delete key placed
  end.

(** [CleanupOldImagesCommand]; [Range] visits every entry of the map once and
    the callback deletes from the same map.  [now] is the reading of the
    clock during the call. *)
Definition CleanupOldImagesCommand (d : DisplayManager) (now maxAge : Z)
  : M string := λ s,
  ("", setPlaced (map_fold (cleanupEntry now maxAge) (globalPlacedImages s)
                    (globalPlacedImages s)) s).

Definition CleanupAllImagesCommand (d : DisplayManager) : M string := mret "".

(** Number of loader invocations recorded in a trace. *)
Fixpoint loadCalls (tr : list Event) : nat :=
  match tr with
  | [] => 0%nat
  | EvLoad _ :: rest => S (loadCalls rest)
  | EvLog _ _ _ :: rest => loadCalls rest
  end.

End WithExternals.
End sixelimg.

(** ** A stand-in FFZ server, for running the client on concrete exchanges *)
Module ffzfixture.
Import ffz.

(** The stand-in decoder of an error body: a body that opens with a brace is
    an object whose message is the rest of the body; anything else is not
    JSON. *)
Definition decodeMessage (b : list byte) : string + option string :=
  match b with
  | x7b :: rest => inr (Some (string_of_list_byte rest))
  | _ => inl "invalid character looking for beginning of value"
  end.

Definition kappa : Emote :=
  {| ID := 1; Name := "KappaFFZ"; Height := 28; Width := 28;
     Modifier := false; URLs := ∅ |}.
Definition zreknarf : Emote :=
  {| ID := 2; Name := "ZreknarF"; Height := 28; Width := 28;
     Modifier := false; URLs := ∅ |}.
Definition lilz : Emote :=
  {| ID := 3; Name := "LilZ"; Height := 28; Width := 28;
     Modifier := false; URLs := ∅ |}.

(** Set 3 is a default set; set 4 and the set under a key that is no number
    are not. *)
Definition globalSets : globalResponse :=
  {| DefaultSets := [3];
     Sets := <["3" := {| emoteSet_ID := 3; Emoticons := [kappa; zreknarf] |}]>
             (<["4" := {| emoteSet_ID := 4; Emoticons := [lilz] |}]>
             (<["top" := {| emoteSet_ID := 5; Emoticons := [lilz] |}]> ∅)) |}.

Definition ext : Externals :=
  {| http_NewRequestWithContext := λ method url body,
       inr {| http.Method := method; http.URL := url; http.ReqBody := body |};
     json_Unmarshal_globalResponse := λ _, inr globalSets;
     json_Unmarshal_message := decodeMessage |}.

Definition respond (code : Z) (status : string) (body : list byte) : API :=
  {| client := λ _, inr {| http.StatusCode := code; http.Status := status;
                           http.Body := inr body |} |}.

(** A gateway in front of the provider answers 502 with an HTML page. *)
Definition badGateway : API :=
  respond 502 "502 Bad Gateway" (list_byte_of_string "<html>").

(** The provider answers 404 with an error object. *)
Definition notFound : API :=
  respond 404 "404 Not Found" (list_byte_of_string "{No such room").

Definition ok : API := respond 200 "200 OK" (list_byte_of_string "{}").

End ffzfixture.

(** ** Stand-ins for the display manager's libraries, for running it on
    concrete inputs *)
Module sixelfixture.
Import errors afero sixelimg.

(** The stand-in metadata codec: one byte of column count, then the path. *)
Definition encodeMeta (m : meta) : list byte :=
  default x00 (Byte.of_N (Z.to_N (meta_Cols m))) :: list_byte_of_string (EncodedPath m).
Definition decodeMeta (b : list byte) : string + meta :=
  match b with
  | cols :: path =>
      inr {| meta_Cols := Z.of_N (Byte.to_N cols);
             EncodedPath := string_of_list_byte path |}
  | [] => inl "unexpected end of JSON input"
  end.

(** Images are their bytes, one pixel wide per byte and one cell high; an
    empty body is no image; the animated decoders know no format; the
    compressor stores its input as it is; numbers are integers. *)
Definition ext : Externals :=
  {| Image := list byte;
     float32 := Z;
     filepath_Join := String.concat "/";
     filepath_Clean := id;
     xdg_DataHome := "/home/user/.local/share";
     zlib_compress := id;
     zlib_decompress := inr;
     json_Encode_meta := encodeMeta;
     json_Unmarshal_meta := decodeMeta;
     avif_DecodeAll := λ _, inl "avif: unsupported";
     awebp_DecodeAll := λ _, inl "webp: unsupported";
     gif_DecodeAll := λ _, inl "gif: unsupported";
     image_Decode := λ b,
       match b with
       | [] => ("", inl "image: unknown format")
       | _ => ("png", inr b)
       end;
     Bounds_Dx := λ img, Z.of_nat (length img);
     Bounds_Dy := λ _, 20;
     image_NewRGBA := λ _ _, [];
     imgdraw_Draw := λ _ src _, src;
     draw_CatmullRom_Scale := λ _ src, src;
     sixel_Encode := λ img, inr (String "027" ("Pq" +:+ string_of_list_byte img));
     float32_of_int := id;
     float32_div := Z.div;
     float32_mul := Z.mul;
     int_of_float32 := id;
     int_Round := id;
     int_Ceil := id |}.

Definition manager : DisplayManager (Ext := ext) :=
  @Build_DisplayManager ext 1 20.

(** Loaders over a world with nothing in it. *)
Definition loadOK (body : string) : () → (error + list byte * string) * () :=
  λ w, (inr (list_byte_of_string body, "image/png"), w).
Definition loadFails : () → (error + list byte * string) * () :=
  λ w, (inl (ErrNew "connection refused"), w).

Definition emoteUnit (load : () → (error + list byte * string) * ())
  : kittyimg.DisplayUnit () :=
  {| kittyimg.ID := "ffz.1"; kittyimg.Directory := "emote";
     kittyimg.IsAnimated := false; kittyimg.RightPadding := 0;
     kittyimg.Load := load |}.

(** A file system that refuses nothing, and one that cannot be written
    (as [afero.NewReadOnlyFs]: every change is refused). *)
Definition noFault : Op → option error := λ _, None.
Definition readOnly : Op → option error := λ op,
  match op with
  | OpReadFile _ => None
  | _ => Some (ErrNew "operation not permitted")
  end.

(** The state of a fresh process over an empty file system. *)
Definition fresh (fault : Op → option error) : State (World := ()) :=
  {| globalPlacedImages := ∅;
     globalImagePlacementIDCounter := 0;
     disk := {| files := ∅; dirs := ∅; fault := fault |};
     world := ();
     trace := [] |}.

(** A metadata file that holds nothing decodable. *)
Definition corrupt : State (World := ()) :=
  {| globalPlacedImages := ∅;
     globalImagePlacementIDCounter := 0;
     disk := {| files := {[ "/home/user/.local/share/chatuino/sixel/emote/ffz.1.sixel.json" := [] ]};
                dirs := ∅; fault := noFault |};
     world := ();
     trace := [] |}.

End sixelfixture.

(** ** The FFZ properties, in the words of the specification *)
Module ffzprops.
Import ffz.

(** The key of a response set parses as an integer that is
    listed in [default_sets]. *)
Definition keyInDefaultSets (defaults : list Z) (key : string) : Prop :=
  match strconv.Atoi key with
  | Some id => id ∈ defaults
  | None => False
  end.

#[global] Instance keyInDefaultSets_dec defaults key :
  Decision (keyInDefaultSets defaults key).
Proof. unfold keyInDefaultSets. destruct (strconv.Atoi key); apply _. Defined.

(** What one entry adds to the result. *)
Definition contribution (defaults : list Z) (entry : string * emoteSet)
  : list Emote :=
  if decide (keyInDefaultSets defaults entry.1) then Emoticons entry.2 else [].

(** The reading of C5 as it is written: every response with a status code
    outside 200-299 comes back as an [APIError] carrying that code and the
    status text. *)
Definition non2xx_always_APIError : Prop :=
  ∀ (Ext : Externals) (api : API) (method url : string)
    (body : option (list byte)) (req : http.Request) (resp : http.Response),
    http_NewRequestWithContext method (baseURL +:+ url) body = inr req →
    client api req = inr resp →
    http.StatusCode resp < 200 ∨ 300 ≤ http.StatusCode resp →
    ∃ message,
      doRequest json_Unmarshal_globalResponse api method url body
      = inl (ErrAPI {| StatusCode := http.StatusCode resp;
                       Status := http.Status resp;
                       Message := message |}).

End ffzprops.

(** ** The display manager's properties, in the words of the specification *)
Module sixelprops.
Import errors afero sixelimg.

Section WithExternals.
Context `{Ext : Externals} {World : Type}.

(** [createGetCacheDirectory] succeeds when the file system makes the
    directory or says it exists. *)
Definition mkdirOK (fs : Fs) (dir : string) : Prop :=
  match fault fs (OpMkdirAll (cacheDirectory dir)) with
  | Some err => Is err ErrExist = true
  | None => True
  end.

(** The package stores nothing but [DecodedImage] values in the session
    cache. *)
Definition imagesOnly (placed : gmap string any) : Prop :=
  ∀ key value, placed !! key = Some value → ∃ i, value = anyDecodedImage i.

(** The warning a stage logs for an error, if there is one. *)
Definition warnIfSome (msg : string) (err : option error) : list Event :=
  match err with
  | Some e => [EvLog Warn msg (Some e)]
  | None => []
  end.

End WithExternals.

(** The reading of C1 as it is written: for every unit and state, two calls
    of [Convert] invoke the loader at most once in total, and the second
    returns what the first returned. *)
Definition convert_twice_loads_at_most_once : Prop :=
  ∀ (Ext : Externals) (World : Type) (d : DisplayManager) (now1 now2 : Z)
    (unit : kittyimg.DisplayUnit World) (s : State),
    let first := Convert d now1 unit s in
    let second := Convert d now2 unit first.2 in
    (loadCalls (trace second.2) ≤ S (loadCalls (trace s)))%nat
    ∧ second.1 = first.1.

(** The reading of C2 as it is written: whenever a first conversion of a
    unit succeeded by invoking the loader, a conversion after the entry is
    removed from the session cache returns the same payload without
    invoking the loader. *)
Definition reconvert_never_loads : Prop :=
  ∀ (Ext : Externals) (World : Type) (d : DisplayManager) (now1 now2 : Z)
    (unit : kittyimg.DisplayUnit World) (s : State) r1 s1,
    globalPlacedImages s !! kittyimg.ID unit = None →
    Convert d now1 unit s = ((r1, None), s1) →
    loadCalls (trace s1) = S (loadCalls (trace s)) →
    ∃ s2,
      Convert d now2 unit (placed_Delete (kittyimg.ID unit) s1).2
      = ((r1, None), s2)
      ∧ loadCalls (trace s2) = loadCalls (trace s1).

End sixelprops.

(** ** Package ffz, the channel endpoint *)
Module ffzchannel.
Import ffz.

(** The field [Set] of [Room] is [Set'] here: [Set] is a sort of Rocq. *)
Record Room := {
  TwitchID : Z;
  Set' : Z;
}.

(** The fields [Room] and [Sets] of [channelResponse] are [Room'] and
    [Sets'] here: the names are taken by the type and by [globalResponse]. *)
Record channelResponse := {
  Room' : Room;
  Sets' : gmap string emoteSet;
}.

(** [NewAPI(client)]: a nil client is replaced by [http.DefaultClient]. *)
Definition NewAPI (DefaultClient : http.Request → string + http.Response)
    (client : option (http.Request → string + http.Response)) : API :=
  match client with
  | None => {| ffz.client := DefaultClient |}
  | Some client => {| ffz.client := client |}
  end.

(** [collectEmotes]; [rangeSets] is the order in which Go visits the map. *)
Definition collectEmotes
    (rangeSets : gmap string emoteSet → list (string * emoteSet))
    (sets : gmap string emoteSet) : list Emote :=
  fold_left (λ emotes entry, emotes ++ Emoticons entry.2) (rangeSets sets) [].

Section WithExternals.
Context `{Ext : Externals}.
(** [json.Unmarshal] into a fresh [channelResponse] *)
Variable json_Unmarshal_channelResponse : list byte → string + channelResponse.

Definition GetChannelEmotes (a : API) (channelID : string)
    (rangeSets : gmap string emoteSet → list (string * emoteSet))
  : error + list Emote :=
  match doRequest json_Unmarshal_channelResponse a "GET"
          ("/room/id/" +:+ channelID) None with
  | inl err => inl err
  | inr resp => inr (collectEmotes rangeSets (Sets' resp))
  end.

End WithExternals.
End ffzchannel.

(** ** strings and os, as far as the terminal probing uses them *)
Module strings.

(** [strings.HasPrefix(s, prefix)] *)
Definition HasPrefix (s prefix : string) : bool := String.prefix prefix s.

(** [strings.Contains(s, substr)]: [substr] starts at some position of [s]. *)
Fixpoint Contains (s substr : string) : bool :=
  String.prefix substr s
  || match s with
     | EmptyString => false
     | String _ rest => Contains rest substr
     end.

End strings.

Module os.

(** The environment of the process. *)
Definition Environ := gmap string string.

(** [os.LookupEnv(key)]: the value and whether the variable is set. *)
Definition LookupEnv (env : Environ) (key : string) : string * bool :=
  match env !! key with
  | Some value => (value, true)
  | None => ("", false)
  end.

(** [os.Getenv(key)] *)
Definition Getenv (env : Environ) (key : string) : string :=
  (LookupEnv env key).1.

End os.

(** ** Package main, terminal probing on unix (src/termsize_unix.go) *)
Module termsize_unix.

Section WithGraphicsMode.
(** [save.GraphicsMode] and its two constants; package save is not among the
    sources. *)
Context {GraphicsMode : Type} `{EqDecision GraphicsMode}.
Variables GraphicsModeSixel GraphicsModeKitty : GraphicsMode.

Definition sixelTerms : list string :=
  ["mlterm"; "xterm-256color"; "mintty"; "foot"].

Definition hasSixelSupport (env : os.Environ) : bool :=
  let term := os.Getenv env "TERM" in
  let termProgram := os.Getenv env "TERM_PROGRAM" in
  if existsb (λ t, strings.Contains term t) sixelTerms then true
  else if String.eqb termProgram "WezTerm" then true
  else if strings.HasPrefix term "foot" then true
  else true.

(** The [switch]: the sixel case, then kitty falling through to default. *)
Definition hasImageSupport (mode : GraphicsMode) (env : os.Environ) : bool :=
  let isKitty := (os.LookupEnv env "KITTY_WINDOW_ID").2 in
  let term := os.Getenv env "TERM" in
  if decide (mode = GraphicsModeSixel) then hasSixelSupport env
  else isKitty || String.eqb term "xterm-ghostty".

End WithGraphicsMode.
End termsize_unix.

(** ** Package main, terminal probing elsewhere (the build without unix) *)
Module termsize_other.

Section WithGraphicsMode.
Context {GraphicsMode : Type} `{EqDecision GraphicsMode}.
Variable GraphicsModeSixel : GraphicsMode.
(** [float32] and the value of an integer-valued constant in it. *)
Context {float32 : Type}.
Variable float32_const : Z → float32.
(** [strings.Split(s, sep)], [strings.TrimSpace(s)] *)
Variable strings_Split : string → string → list string.
Variable strings_TrimSpace : string → string.

Definition hasSixelSupport (env : os.Environ) : bool :=
  let isWindowsTerminal := (os.LookupEnv env "WT_SESSION").2 in
  if isWindowsTerminal then true
  else
    let term := os.Getenv env "TERM" in
    if strings.Contains term "mintty" || strings.Contains term "xterm" then true
    else true.

Definition hasImageSupport (mode : GraphicsMode) (env : os.Environ) : bool :=
  if decide (mode = GraphicsModeSixel) then hasSixelSupport env else false.

(** [n, _ = strconv.Atoi(strings.TrimSpace(parts[1]))] when [parts] has at
    least two elements; otherwise the variable keeps its value. *)
Definition secondField (line : string) (old : Z) : Z :=
  match strings_Split line ":" with
  | _ :: field :: _ => default 0 (strconv.Atoi (strings_TrimSpace field))
  | _ => old
  end.

(** The body of the loop over the lines of [mode con]. *)
Definition scanLine (size : Z * Z) (line : string) : Z * Z :=
  let '(cols, rows) := size in
  let line := strings_TrimSpace line in
  let cols :=
    if strings.Contains line "Columns:" || strings.Contains line "Spalten:"
    then secondField line cols else cols in
  let rows :=
    if strings.Contains line "Lines:" || strings.Contains line "Zeilen:"
    then secondField line rows else rows in
  (cols, rows).

(** [getTermCellWidthHeight]; [output] is what [cmd.Output()] gives for
    [cmd /c mode con]: the bytes printed, or the error. *)
Definition getTermCellWidthHeight (output : errors.error + string)
  : float32 * float32 * option errors.error :=
  match output with
  | inr output =>
      let lines := strings_Split output (String "010" "") in
      let '(cols, rows) := fold_left scanLine lines (0, 0) in
      if (0 <? cols) && (0 <? rows)
      then (float32_const 9, float32_const 20, None)
      else (float32_const 9, float32_const 20, None)
  | inl _ => (float32_const 9, float32_const 20, None)
  end.

End WithGraphicsMode.
End termsize_other.

(** ** A second stand-in FFZ server, whose answer depends on the body *)
Module ffzfixture2.
Import ffz ffzchannel.

(** The same sets as [ffzfixture.globalSets], the default set listed
    twice. *)
Definition globalSetsRepeated : globalResponse :=
  {| DefaultSets := [3; 3]; Sets := Sets ffzfixture.globalSets |}.

(** No default set at all. *)
Definition globalSetsNone : globalResponse :=
  {| DefaultSets := []; Sets := Sets ffzfixture.globalSets |}.

(** A body of one byte selects the response: [r] the repeated list, [n] the
    empty list, anything else the plain one. *)
Definition decodeGlobal (b : list byte) : string + globalResponse :=
  match b with
  | [x72] => inr globalSetsRepeated
  | [x6e] => inr globalSetsNone
  | _ => inr ffzfixture.globalSets
  end.

Definition ext : Externals :=
  {| http_NewRequestWithContext := λ method url body,
       inr {| http.Method := method; http.URL := url; http.ReqBody := body |};
     json_Unmarshal_globalResponse := decodeGlobal;
     json_Unmarshal_message := ffzfixture.decodeMessage |}.

Definition plain : API := ffzfixture.respond 200 "200 OK" [x70].
Definition repeated : API := ffzfixture.respond 200 "200 OK" [x72].
Definition none : API := ffzfixture.respond 200 "200 OK" [x6e].

Definition room : channelResponse :=
  {| Room' := {| TwitchID := 22484632; Set' := 4 |};
     Sets' := Sets ffzfixture.globalSets |}.

Definition decodeChannel (b : list byte) : string + channelResponse := inr room.

End ffzfixture2.

(** ** More stand-ins for running the display manager *)
Module sixelfixture2.
Import errors afero sixelimg sixelfixture.

(** As [sixelfixture.ext], with an avif decoder that decodes every input to
    an animation without frames. *)
Definition extNoFrames : Externals :=
  {| Image := list byte;
     float32 := Z;
     filepath_Join := String.concat "/";
     filepath_Clean := id;
     xdg_DataHome := "/home/user/.local/share";
     zlib_compress := id;
     zlib_decompress := inr;
     json_Encode_meta := encodeMeta;
     json_Unmarshal_meta := decodeMeta;
     avif_DecodeAll := λ _, inr [];
     awebp_DecodeAll := λ _, inl "webp: unsupported";
     gif_DecodeAll := λ _, inl "gif: unsupported";
     image_Decode := λ b,
       match b with
       | [] => ("", inl "image: unknown format")
       | _ => ("png", inr b)
       end;
     Bounds_Dx := λ img, Z.of_nat (length img);
     Bounds_Dy := λ _, 20;
     image_NewRGBA := λ _ _, [];
     imgdraw_Draw := λ _ src _, src;
     draw_CatmullRom_Scale := λ _ src, src;
     sixel_Encode := λ img, inr (String "027" ("Pq" +:+ string_of_list_byte img));
     float32_of_int := id;
     float32_div := Z.div;
     float32_mul := Z.mul;
     int_of_float32 := id;
     int_Round := id;
     int_Ceil := id |}.

(** A file system with no room left for the payload file of [ffz.1]. *)
Definition refusePayload : Op → option error := λ op,
  match op with
  | OpCreate name =>
      if String.eqb name
           "/home/user/.local/share/chatuino/sixel/emote/ffz.1.sixel.zlib"
      then Some (ErrNew "no space left on device")
      else None
  | _ => None
  end.

(** A later process: the image of [ffz.1] is in the persistent cache and
    not in the session cache. *)
Definition restarted : State (World := ()) :=
  (placed_Delete "ffz.1"
     (Convert (Ext := ext) manager 100 (emoteUnit (loadOK "abc"))
        (fresh noFault)).2).2.

(** Another emote, with a padding that is not positive. *)
Definition paddedUnit (padding : Z) : kittyimg.DisplayUnit () :=
  {| kittyimg.ID := "bttv.9"; kittyimg.Directory := "badge";
     kittyimg.IsAnimated := true; kittyimg.RightPadding := padding;
     kittyimg.Load := loadFails |}.

End sixelfixture2.

(** * Properties *)

Module EmoteSpec.
Import emote.

Lemma GetByText_miss (set : EmoteSet) (text : string) :
  Forall (λ x, Text x ≠ text) set → GetByText set text = (Emote_zero, false).
Proof.
  induction 1 as [|x rest Hx _ IH]; simpl; [done|].
  destruct (String.eqb_spec (Text x) text); [done|apply IH].
Qed.

Lemma GetByText_hit (pre post : EmoteSet) (e : Emote) (text : string) :
  Forall (λ x, Text x ≠ text) pre → Text e = text →
  GetByText (pre ++ e :: post) text = (e, true).
Proof.
  intros Hpre He. induction Hpre as [|x pre Hx _ IH]; simpl.
  - by rewrite He, String.eqb_refl.
  - destruct (String.eqb_spec (Text x) text); [done|apply IH].
Qed.

(** C4. [GetByText] scans the set in insertion order: either the set splits
    as [pre ++ e :: post] where [e] is the first element whose [Text] is the
    query (nothing in [pre] has that text, whatever [post] holds) and the
    result is [(e, true)]; or no element has that text and the result is the
    zero-valued [Emote] with [false]. *)
Theorem GetByText_first_match_or_zero (set : EmoteSet) (text : string) :
  (∃ pre e post,
      set = pre ++ e :: post ∧ Text e = text
      ∧ Forall (λ x, Text x ≠ text) pre
      ∧ GetByText set text = (e, true))
  ∨ (Forall (λ x, Text x ≠ text) set
     ∧ GetByText set text = (Emote_zero, false)).
Proof.
  induction set as [|x rest IH].
  - right. split; [constructor|reflexivity].
  - destruct (decide (Text x = text)) as [Heq|Hne].
    + left. exists [], x, rest. repeat split; [done|constructor|].
      apply (GetByText_hit [] rest x text); [constructor|done].
    + destruct IH as [(pre & e & post & -> & He & Hpre & _)|[Hall _]].
      * left. exists (x :: pre), e, post. repeat split; [done|by constructor|].
        apply (GetByText_hit (x :: pre) post e text); [by constructor|done].
      * right. split; [by constructor|].
        apply GetByText_miss. by constructor.
Qed.

(** Two providers ship an emote with the same text: the one inserted first
    is found; a text nobody ships gives the zero value. *)
Example GetByText_duplicate_text :
  let emote id text platform :=
    {| ID := id; Text := text; Platform' := platform; URL := "";
       IsAnimated := false; Format := "png"; TTVEmoteType := "" |} in
  let set := [emote "1" "LUL" Twitch; emote "25" "Kappa" Twitch;
              emote "5f1b0186cf6d2144653d2970" "Kappa" BTTV] in
  GetByText set "Kappa" = (emote "25" "Kappa" Twitch, true)
  ∧ GetByText set "PogChamp" = (Emote_zero, false).
Proof. split; reflexivity. Qed.

End EmoteSpec.

Module FfzSpec.
Import ffz ffzprops.

Example Atoi_plain : strconv.Atoi "42" = Some 42.
Proof. reflexivity. Qed.
Example Atoi_signed : strconv.Atoi "-07" = Some (-7) ∧ strconv.Atoi "+5" = Some 5.
Proof. split; reflexivity. Qed.
Example Atoi_syntax :
  strconv.Atoi "" = None ∧ strconv.Atoi "-" = None ∧ strconv.Atoi "4a" = None
  ∧ strconv.Atoi " 4" = None.
Proof. repeat split; reflexivity. Qed.
Example Atoi_range :
  strconv.Atoi "9223372036854775807" = Some strconv.maxInt
  ∧ strconv.Atoi "9223372036854775808" = None
  ∧ strconv.Atoi "-9223372036854775808" = Some strconv.minInt.
Proof. repeat split; reflexivity. Qed.

Section Client.
Context `{Ext : Externals}.

Lemma makeDefaultSets_fold (ids : list Z) (acc : gset Z) (id : Z) :
  id ∈ fold_left (λ defaultSets id, {[id]} ∪ defaultSets) ids acc
  ↔ id ∈ ids ∨ id ∈ acc.
Proof.
  revert acc. induction ids as [|x ids IH]; intros acc; simpl.
  - set_solver.
  - rewrite IH. set_solver.
Qed.

Lemma elem_of_makeDefaultSets (ids : list Z) (id : Z) :
  id ∈ makeDefaultSets ids ↔ id ∈ ids.
Proof. unfold makeDefaultSets. rewrite makeDefaultSets_fold. set_solver. Qed.

Lemma appendDefaultSet_contribution defaults emotes entry :
  appendDefaultSet (makeDefaultSets defaults) emotes entry
  = emotes ++ contribution defaults entry.
Proof.
  destruct entry as [idStr set]. unfold appendDefaultSet, contribution; simpl.
  destruct (decide (keyInDefaultSets defaults idStr)) as [Hkey|Hkey];
    unfold keyInDefaultSets in Hkey;
    destruct (strconv.Atoi idStr) as [id|]; rewrite ?app_nil_r; try done.
  - rewrite decide_True; [done|by apply elem_of_makeDefaultSets].
  - rewrite decide_False; [done|by rewrite elem_of_makeDefaultSets].
Qed.

Lemma fold_appendDefaultSet defaults entries emotes :
  fold_left (appendDefaultSet (makeDefaultSets defaults)) entries emotes
  = emotes ++ mjoin (contribution defaults <$> entries).
Proof.
  revert emotes. induction entries as [|entry entries IH]; intros emotes; simpl.
  - by rewrite app_nil_r.
  - rewrite IH, appendDefaultSet_contribution. by rewrite <-app_assoc.
Qed.

Lemma contribution_filter defaults (entries : list (string * emoteSet)) :
  mjoin (contribution defaults <$> entries)
  = mjoin ((λ entry, Emoticons entry.2)
           <$> filter (λ entry, keyInDefaultSets defaults entry.1) entries).
Proof.
  induction entries as [|entry entries IH]; [done|].
  rewrite filter_cons, fmap_cons. simpl. rewrite IH. unfold contribution.
  destruct (decide (keyInDefaultSets defaults entry.1)); done.
Qed.

(** C10. When the request succeeds with response [resp], whatever order Go
    visits the map in, [GetGlobalEmotes] returns, up to that order, the
    emotes of exactly the sets whose key parses as an integer listed in
    [default_sets]: every emote of such a set is returned, as often as it
    occurs, and nothing else is. *)
Theorem GetGlobalEmotes_exactly_default_sets (a : API)
    (rangeSets : gmap string emoteSet → list (string * emoteSet))
    (resp : globalResponse) :
  doRequest json_Unmarshal_globalResponse a "GET" "/set/global" None = inr resp →
  rangeSets (Sets resp) ≡ₚ map_to_list (Sets resp) →
  ∃ emotes,
    GetGlobalEmotes a rangeSets = inr emotes
    ∧ emotes ≡ₚ mjoin ((λ entry, Emoticons entry.2)
                       <$> filter (λ entry, keyInDefaultSets (DefaultSets resp) entry.1)
                             (map_to_list (Sets resp)))
    ∧ ∀ e, e ∈ emotes ↔
           ∃ key set, Sets resp !! key = Some set
                      ∧ keyInDefaultSets (DefaultSets resp) key
                      ∧ e ∈ Emoticons set.
Proof.
  intros Hreq Horder. unfold GetGlobalEmotes. rewrite Hreq.
  eexists. split; [reflexivity|].
  rewrite fold_appendDefaultSet, app_nil_l, contribution_filter.
  assert (Hperm :
    mjoin ((λ entry : string * emoteSet, Emoticons entry.2)
           <$> filter (λ entry, keyInDefaultSets (DefaultSets resp) entry.1)
                 (rangeSets (Sets resp)))
    ≡ₚ mjoin ((λ entry : string * emoteSet, Emoticons entry.2)
              <$> filter (λ entry, keyInDefaultSets (DefaultSets resp) entry.1)
                    (map_to_list (Sets resp)))) by (by rewrite Horder).
  split; [exact Hperm|].
  intros e. rewrite Hperm, list_elem_of_join. split.
  - intros (l & He & (entry & -> & Hentry)%list_elem_of_fmap).
    apply list_elem_of_filter in Hentry as [Hkey Hin].
    destruct entry as [key set]. apply elem_of_map_to_list in Hin.
    by exists key, set.
  - intros (key & set & Hlookup & Hkey & He).
    exists (Emoticons set). split; [done|].
    apply list_elem_of_fmap. exists (key, set). split; [done|].
    apply list_elem_of_filter. split; [done|by apply elem_of_map_to_list].
Qed.

(** A response is turned into an [APIError] only on the non-2xx branch. *)
Lemma doRequest_non2xx {T : Type} (unmarshal : list byte → string + T)
    (api : API) (method url : string) (body : option (list byte))
    (req : http.Request) (resp : http.Response) (respBody : list byte) :
  http_NewRequestWithContext method (baseURL +:+ url) body = inr req →
  client api req = inr resp →
  http.Body resp = inr respBody →
  http.StatusCode resp < 200 ∨ 300 ≤ http.StatusCode resp →
  doRequest unmarshal api method url body
  = match json_Unmarshal_message respBody with
    | inl msg => inl (ErrUnmarshal msg)
    | inr message =>
        inl (ErrAPI {| StatusCode := http.StatusCode resp;
                       Status := http.Status resp;
                       Message := default "" message |})
    end.
Proof.
  intros Hreq Hdo Hbody Hcode. unfold doRequest. rewrite Hreq, Hdo, Hbody.
  replace ((http.StatusCode resp <? 200) || (http.StatusCode resp >=? 300))
    with true by (symmetry; apply orb_true_iff; lia).
  unfold json_Unmarshal_APIError.
  by destruct (json_Unmarshal_message respBody) as [msg|[m|]].
Qed.

Lemma doRequest_2xx {T : Type} (unmarshal : list byte → string + T)
    (api : API) (method url : string) (body : option (list byte))
    (req : http.Request) (resp : http.Response) :
  http_NewRequestWithContext method (baseURL +:+ url) body = inr req →
  client api req = inr resp →
  200 ≤ http.StatusCode resp < 300 →
  ∀ e, doRequest unmarshal api method url body ≠ inl (ErrAPI e).
Proof.
  intros Hreq Hdo Hcode e. unfold doRequest. rewrite Hreq, Hdo.
  destruct (http.Body resp) as [msg|respBody]; [done|].
  replace ((http.StatusCode resp <? 200) || (http.StatusCode resp >=? 300))
    with false by (symmetry; apply orb_false_iff; lia).
  by destruct (unmarshal respBody).
Qed.

(** C5, as amended. For a request that got a response whose body could be
    read: when the status code is outside 200-299 and the body decodes as
    JSON, [doRequest] returns an [APIError] carrying the HTTP status code,
    the status text and the decoded message (empty when the object has
    none); when the body does not decode, it returns the decoder's error
    instead; and for a 2xx response it never returns an [APIError]. *)
Theorem doRequest_APIError_when_body_decodes {T : Type}
    (unmarshal : list byte → string + T)
    (api : API) (method url : string) (body : option (list byte))
    (req : http.Request) (resp : http.Response) (respBody : list byte) :
  http_NewRequestWithContext method (baseURL +:+ url) body = inr req →
  client api req = inr resp →
  http.Body resp = inr respBody →
  (http.StatusCode resp < 200 ∨ 300 ≤ http.StatusCode resp →
     (∀ message, json_Unmarshal_message respBody = inr message →
        doRequest unmarshal api method url body
        = inl (ErrAPI {| StatusCode := http.StatusCode resp;
                         Status := http.Status resp;
                         Message := default "" message |}))
     ∧ (∀ msg, json_Unmarshal_message respBody = inl msg →
        doRequest unmarshal api method url body = inl (ErrUnmarshal msg)))
  ∧ (200 ≤ http.StatusCode resp < 300 →
     ∀ e, doRequest unmarshal api method url body ≠ inl (ErrAPI e)).
Proof.
  intros Hreq Hdo Hbody. split.
  - intros Hcode.
    pose proof (doRequest_non2xx unmarshal api method url body req resp respBody
                  Hreq Hdo Hbody Hcode) as Hrun.
    split; [intros message Hdec|intros msg Hdec]; by rewrite Hrun, Hdec.
  - intros Hcode. by apply (doRequest_2xx unmarshal api method url body req resp).
Qed.

End Client.

(** C5, counterexample. A 502 whose body is an HTML page: decoding the body
    fails and [doRequest] returns the decoder's error, not an [APIError]. *)
Lemma doRequest_non2xx_undecodable_body : ¬ non2xx_always_APIError.
Proof.
  intros Hclaim.
  destruct (Hclaim ffzfixture.ext ffzfixture.badGateway "GET" "/set/global" None
              {| http.Method := "GET"; http.URL := baseURL +:+ "/set/global";
                 http.ReqBody := None |}
              {| http.StatusCode := 502; http.Status := "502 Bad Gateway";
                 http.Body := inr (list_byte_of_string "<html>") |}
              eq_refl eq_refl ltac:(right; simpl; lia)) as [message Hrun].
  vm_compute in Hrun. discriminate Hrun.
Qed.

Section OnFixture.
#[local] Existing Instance ffzfixture.ext.

(** C5, witness: a 404 with an error object. *)
Lemma doRequest_APIError_when_body_decodes_witness :
  doRequest json_Unmarshal_globalResponse
    ffzfixture.notFound "GET" "/room/id/1" None
  = inl (ErrAPI {| StatusCode := 404; Status := "404 Not Found";
                   Message := "No such room" |}).
Proof.
  refine (proj1 (proj1 (doRequest_APIError_when_body_decodes
    json_Unmarshal_globalResponse
    ffzfixture.notFound "GET" "/room/id/1" None
    {| http.Method := "GET"; http.URL := baseURL +:+ "/room/id/1";
       http.ReqBody := None |}
    {| http.StatusCode := 404; http.Status := "404 Not Found";
       http.Body := inr (list_byte_of_string "{No such room") |}
    (list_byte_of_string "{No such room") _ _ _) _) (Some "No such room") _).
  - reflexivity.
  - reflexivity.
  - reflexivity.
  - right. simpl. lia.
  - reflexivity.
Defined.

(** C10, witness: of the sets under keys 3, 4 and top, only set 3 is a
    default set, and its two emotes are the result. *)
Lemma GetGlobalEmotes_exactly_default_sets_witness :
  ∃ emotes,
    GetGlobalEmotes ffzfixture.ok map_to_list = inr emotes
    ∧ emotes ≡ₚ [ffzfixture.kappa; ffzfixture.zreknarf].
Proof.
  destruct (GetGlobalEmotes_exactly_default_sets
              ffzfixture.ok map_to_list ffzfixture.globalSets)
    as (emotes & Hrun & Hperm & _).
  - reflexivity.
  - reflexivity.
  - exists emotes. split; [exact Hrun|].
    rewrite Hperm. vm_compute. reflexivity.
Defined.

End OnFixture.
End FfzSpec.

Module SixelSpec.
Import errors afero sixelimg sixelprops.

Ltac unfold_F :=
  unfold mbind, mret, F_bind, F_ret, MkdirAll, Create, Write, ReadFile in *.
Ltac unfold_M :=
  unfold mbind, mret, M_bind, M_ret, placed_Load, placed_Store, placed_Swap,
    placed_Delete, counter_Add, log, emit, logged, onDisk, callLoad, setPlaced
    in *.

Section FileSystem.
Context `{Ext : Externals} {World : Type}.
Implicit Types (unit : kittyimg.DisplayUnit World) (fs : Fs).

Lemma createGetCacheDirectory_run dir fs :
  ∃ fs', fault fs' = fault fs ∧ files fs' = files fs
    ∧ ((mkdirOK fs dir
         ∧ createGetCacheDirectory dir fs = ((cacheDirectory dir, None), fs'))
       ∨ (∃ err, ¬ mkdirOK fs dir
           ∧ createGetCacheDirectory dir fs = (("", Some err), fs'))).
Proof.
  unfold createGetCacheDirectory, mkdirOK. unfold_F.
  destruct (fault fs (OpMkdirAll (cacheDirectory dir))) as [err|] eqn:Hfault.
  - destruct (Is err ErrExist) eqn:His; exists fs; (split; [done|split; [done|]]).
    + by left.
    + right. exists err. split; [congruence|done].
  - eexists. split; [|split; [|left; split; [done|reflexivity]]]; done.
Qed.

Lemma ReadFile_state name fs : (ReadFile name fs).2 = fs.
Proof.
  unfold ReadFile. destruct (fault fs (OpReadFile name)); [done|].
  by destruct (files fs !! name).
Qed.

(** [openCached] leaves the file system as making the directory left it. *)
Lemma openCached_state unit fs :
  (openCached unit fs).2
  = (createGetCacheDirectory (kittyimg.Directory unit) fs).2.
Proof.
  unfold openCached. unfold mbind at 1, F_bind at 1.
  destruct (createGetCacheDirectory (kittyimg.Directory unit) fs)
    as [[dir [err|]] fs0]; [done|]. simpl.
  unfold mbind at 1, F_bind at 1.
  pose proof (ReadFile_state (metaImageFilePath dir (kittyimg.ID unit)) fs0) as H1.
  destruct (ReadFile (metaImageFilePath dir (kittyimg.ID unit)) fs0)
    as [[err|data] fs1]; simpl in H1; subst fs1.
  { by destruct (Is err ErrNotExist). }
  destruct (json_Unmarshal_meta data) as [msg|m]; [done|].
  unfold mbind at 1, F_bind at 1.
  pose proof (ReadFile_state (EncodedPath m) fs0) as H2.
  destruct (ReadFile (EncodedPath m) fs0) as [[err|compressed] fs2];
    simpl in H2; subst fs2; [done|].
  by destruct (zlib_decompress compressed).
Qed.

(** Reading the persistent cache never changes a file or the faults. *)
Lemma openCached_frame unit fs :
  files (openCached unit fs).2 = files fs
  ∧ fault (openCached unit fs).2 = fault fs.
Proof.
  rewrite openCached_state.
  destruct (createGetCacheDirectory_run (kittyimg.Directory unit) fs)
    as (fs' & Hfault & Hfiles & [[_ Hrun]|(err & _ & Hrun)]);
    by rewrite Hrun.
Qed.

(** An error from [openCached] always comes with [found = false]. *)
Lemma openCached_error_not_found unit fs img found err fs' :
  openCached unit fs = ((img, found, Some err), fs') → found = false.
Proof.
  unfold openCached. unfold mbind at 1, F_bind at 1.
  destruct (createGetCacheDirectory (kittyimg.Directory unit) fs)
    as [[dir [err0|]] fs0]; [by intros [= <- <- <-]|]. simpl.
  unfold mbind at 1, F_bind at 1.
  destruct (ReadFile (metaImageFilePath dir (kittyimg.ID unit)) fs0)
    as [[err1|data] fs1].
  { destruct (Is err1 ErrNotExist); by intros [= <- <- <-]. }
  destruct (json_Unmarshal_meta data) as [msg|m]; [by intros [= <- <- <-]|].
  unfold mbind at 1, F_bind at 1.
  destruct (ReadFile (EncodedPath m) fs1) as [[err2|compressed] fs2];
    [by intros [= <- <- <-]|].
  destruct (zlib_decompress compressed); by intros [= <- <- <-].
Qed.

(** A write-back either fails or leaves the two files of the unit behind. *)
Lemma cacheDecodedImage_written decoded unit fs fs' :
  let dir := cacheDirectory (kittyimg.Directory unit) in
  let id := kittyimg.ID unit in
  cacheDecodedImage decoded unit fs = (None, fs') →
  metaImageFilePath dir id ≠ compressedPath dir id →
  mkdirOK fs (kittyimg.Directory unit)
  ∧ fault fs' = fault fs
  ∧ files fs' !! metaImageFilePath dir id
    = Some (json_Encode_meta
              {| meta_Cols := Cols decoded; EncodedPath := compressedPath dir id |})
  ∧ files fs' !! compressedPath dir id
    = Some (zlib_compress (list_byte_of_string (SixelData decoded))).
Proof.
  intros dir id. unfold cacheDecodedImage.
  destruct (createGetCacheDirectory_run (kittyimg.Directory unit) fs)
    as (fs0 & Hfault0 & Hfiles0 & [[Hmk Hrun]|(err0 & _ & Hrun)]);
    unfold mbind at 1, F_bind at 1; rewrite Hrun; [|done].
  fold dir id. unfold_F. simpl. rewrite !Hfault0.
  destruct (fault fs (OpCreate (metaImageFilePath dir id))); [done|]. simpl.
  destruct (fault fs (OpCreate (compressedPath dir id))); [done|]. simpl.
  destruct (fault fs (OpWrite (compressedPath dir id))); [done|]. simpl.
  destruct (fault fs (OpWrite (metaImageFilePath dir id))); [done|]. simpl.
  intros [= <-] Hne. simpl. repeat split; [done|..].
  - rewrite lookup_insert_eq. f_equal.
    rewrite lookup_insert_ne, lookup_insert_ne, lookup_insert_eq by done. done.
  - rewrite lookup_insert_ne, lookup_insert_eq by done. f_equal.
    by rewrite lookup_insert_eq.
Qed.

(** What [openCached] returns once the directory is there, read off the
    two files. *)
Lemma openCached_run unit fs :
  mkdirOK fs (kittyimg.Directory unit) →
  (openCached unit fs).1
  = match (ReadFile (metaImageFilePath (cacheDirectory (kittyimg.Directory unit))
                       (kittyimg.ID unit)) fs).1 with
    | inl err =>
        (DecodedImage_zero, false, if Is err ErrNotExist then None else Some err)
    | inr data =>
        match json_Unmarshal_meta data with
        | inl msg => (DecodedImage_zero, false, Some (ErrNew msg))
        | inr m =>
            match (ReadFile (EncodedPath m) fs).1 with
            | inl err => (DecodedImage_zero, false, Some err)
            | inr compressed =>
                match zlib_decompress compressed with
                | inl msg => (DecodedImage_zero, false, Some (ErrNew msg))
                | inr sixelData =>
                    ({| ID := 0; Cols := meta_Cols m;
                        SixelData := string_of_list_byte sixelData;
                        lastUsed := 0 |}, true, None)
                end
            end
        end
    end.
Proof.
  intros Hmk. unfold openCached.
  destruct (createGetCacheDirectory_run (kittyimg.Directory unit) fs)
    as (fs0 & Hfault0 & Hfiles0 & [[_ Hrun]|(err0 & Hno & _)]); [|done].
  unfold mbind at 1, F_bind at 1. rewrite Hrun.
  unfold_F. simpl. rewrite Hfault0, Hfiles0.
  destruct (fault fs (OpReadFile _)) as [err|]; simpl.
  { by destruct (Is err ErrNotExist). }
  destruct (files fs !! _) as [data|]; simpl; [|done].
  destruct (json_Unmarshal_meta data) as [msg|m]; simpl; [done|].
  rewrite Hfault0, Hfiles0.
  destruct (fault fs (OpReadFile (EncodedPath m))) as [err|]; simpl; [done|].
  destruct (files fs !! EncodedPath m) as [compressed|]; simpl; [|done].
  by destruct (zlib_decompress compressed).
Qed.

(** The ways a persistent-cache entry can be unusable, each an error of
    [openCached]: metadata that cannot be read, metadata that is not JSON, a
    payload file that cannot be read or is missing, a payload that does not
    decompress.  Only metadata that does not exist is a plain miss. *)
Lemma openCached_unusable_entry unit fs :
  let path := metaImageFilePath (cacheDirectory (kittyimg.Directory unit))
                (kittyimg.ID unit) in
  mkdirOK fs (kittyimg.Directory unit) →
  (∀ err, fault fs (OpReadFile path) = Some err →
     (openCached unit fs).1
     = (DecodedImage_zero, false, if Is err ErrNotExist then None else Some err))
  ∧ (fault fs (OpReadFile path) = None → files fs !! path = None →
     (openCached unit fs).1 = (DecodedImage_zero, false, None))
  ∧ (∀ data, fault fs (OpReadFile path) = None → files fs !! path = Some data →
     (∀ msg, json_Unmarshal_meta data = inl msg →
        (openCached unit fs).1 = (DecodedImage_zero, false, Some (ErrNew msg)))
     ∧ (∀ m, json_Unmarshal_meta data = inr m →
        (∀ err, fault fs (OpReadFile (EncodedPath m)) = Some err →
           (openCached unit fs).1 = (DecodedImage_zero, false, Some err))
        ∧ (fault fs (OpReadFile (EncodedPath m)) = None →
           files fs !! EncodedPath m = None →
           (openCached unit fs).1 = (DecodedImage_zero, false, Some ErrNotExist))
        ∧ (∀ compressed msg,
             fault fs (OpReadFile (EncodedPath m)) = None →
             files fs !! EncodedPath m = Some compressed →
             zlib_decompress compressed = inl msg →
             (openCached unit fs).1
             = (DecodedImage_zero, false, Some (ErrNew msg))))).
Proof.
  intros path Hmk. rewrite (openCached_run unit fs Hmk). fold path.
  unfold ReadFile. split; [|split].
  - by intros err ->.
  - by intros -> ->.
  - intros data -> ->. simpl. split.
    + by intros msg ->.
    + intros m ->. split; [|split].
      * by intros err ->.
      * by intros -> ->.
      * intros compressed msg -> ->. simpl. by intros ->.
Qed.

(** Reading back what a write-back left. *)
Lemma openCached_found unit fs (m : meta) (compressed sixelData : list byte) :
  let dir := cacheDirectory (kittyimg.Directory unit) in
  let id := kittyimg.ID unit in
  mkdirOK fs (kittyimg.Directory unit) →
  fault fs (OpReadFile (metaImageFilePath dir id)) = None →
  fault fs (OpReadFile (EncodedPath m)) = None →
  files fs !! metaImageFilePath dir id = Some (json_Encode_meta m) →
  files fs !! EncodedPath m = Some compressed →
  json_Unmarshal_meta (json_Encode_meta m) = inr m →
  zlib_decompress compressed = inr sixelData →
  (openCached unit fs).1
  = ({| ID := 0; Cols := meta_Cols m;
        SixelData := string_of_list_byte sixelData; lastUsed := 0 |}, true, None).
Proof.
  intros dir id Hmk Hr1 Hr2 Hf1 Hf2 Hjson Hzlib.
  rewrite (openCached_run unit fs Hmk). fold dir id. unfold ReadFile.
  rewrite Hr1, Hf1. simpl. rewrite Hjson, Hr2, Hf2. simpl. by rewrite Hzlib.
Qed.

End FileSystem.

Section Manager.
Context `{Ext : Externals} {World : Type}.
Implicit Types (unit : kittyimg.DisplayUnit World) (s : State (World := World)).

(** The third stage, step by step. *)
Lemma Convert_cold_run d now unit incrementID s :
  Convert_cold d now unit incrementID s =
  match kittyimg.Load unit (world s) with
  | (inl err, w') =>
      ((kittyimg.KittyDisplayUnit_zero, Some err),
       Build_State (globalPlacedImages s) (globalImagePlacementIDCounter s)
         (disk s) w' (EvLoad (kittyimg.ID unit) :: trace s))
  | (inr (imageBody, contentType), w') =>
      let converted := convertImageBytes d imageBody unit contentType in
      let events :=
        converted.2 ++ EvLog Info "downloaded image for sixel" None
                    :: EvLoad (kittyimg.ID unit) :: trace s in
      match converted.1 with
      | inl err =>
          ((kittyimg.KittyDisplayUnit_zero, Some err),
           Build_State (globalPlacedImages s)
             (globalImagePlacementIDCounter s) (disk s) w'
             (EvLog Error "" (Some err) :: events))
      | inr decoded =>
          let stored := withIDandLastUsed incrementID now decoded in
          let written := cacheDecodedImage stored unit (disk s) in
          ((payload (SixelData decoded), None),
           Build_State
             (<[kittyimg.ID unit := anyDecodedImage stored]> (globalPlacedImages s))
             (globalImagePlacementIDCounter s) written.2 w'
             (warnIfSome "failed to cache decoded image" written.1 ++ events))
      end
  end.
Proof.
  unfold Convert_cold. unfold_M. simpl.
  destruct (kittyimg.Load unit (world s)) as [[err|[imageBody contentType]] w'];
    [done|]. simpl.
  destruct (convertImageBytes d imageBody unit contentType) as [[err|decoded] evs];
    [done|]. simpl.
  destruct (cacheDecodedImage _ unit (disk s)) as [[err|] fs2]; done.
Qed.

(** The second stage, step by step. *)
Lemma Convert_uncached_run d now unit s :
  Convert_uncached d now unit s =
  let incrementID := wrap32 (globalImagePlacementIDCounter s + 1) in
  let opened := openCached unit (disk s) in
  let s1 :=
    Build_State (globalPlacedImages s) incrementID opened.2 (world s)
      (warnIfSome "failed to open cached image, will re-download" opened.1.2
       ++ trace s) in
  if opened.1.1.2 then
    let cachedDecoded := withIDandLastUsed incrementID now opened.1.1.1 in
    ((payload (SixelData cachedDecoded), None),
     setPlaced (<[kittyimg.ID unit := anyDecodedImage cachedDecoded]>
                  (globalPlacedImages s)) s1)
  else Convert_cold d now unit incrementID s1.
Proof.
  unfold Convert_uncached. unfold_M. simpl.
  destruct (openCached unit (disk s)) as [[[img found] [err|]] fs1]; simpl;
    destruct found; done.
Qed.

(** The first stage, by what the session cache holds. *)
Lemma Convert_session_hit d now unit s i :
  globalPlacedImages s !! kittyimg.ID unit = Some (anyDecodedImage i) →
  Convert d now unit s
  = ((payload (SixelData i), None),
     setPlaced (<[kittyimg.ID unit := anyDecodedImage (withLastUsed now i)]>
                  (globalPlacedImages s)) s).
Proof. intros Hhit. unfold Convert. unfold_M. by rewrite Hhit. Qed.

Lemma Convert_session_miss d now unit s :
  globalPlacedImages s !! kittyimg.ID unit = None →
  Convert d now unit s = Convert_uncached d now unit s.
Proof. intros Hmiss. unfold Convert. unfold_M. by rewrite Hmiss. Qed.

Lemma Convert_session_other d now unit s type :
  globalPlacedImages s !! kittyimg.ID unit = Some (anyOther type) →
  Convert d now unit s
  = Convert_uncached d now unit
      (Build_State (delete (kittyimg.ID unit) (globalPlacedImages s))
         (globalImagePlacementIDCounter s) (disk s) (world s)
         (EvLog Error "unexpected type in session cache" None :: trace s)).
Proof. intros Hother. unfold Convert. unfold_M. by rewrite Hother. Qed.

Lemma loadCalls_app (evs tr : list Event) :
  loadCalls (evs ++ tr) = (loadCalls evs + loadCalls tr)%nat.
Proof.
  induction evs as [|[id|lvl msg err] evs IH]; simpl; [done|by rewrite IH|done].
Qed.

Lemma loadCalls_warnIfSome msg err : loadCalls (warnIfSome msg err) = 0%nat.
Proof. by destruct err. Qed.

Lemma loadCalls_convertImageBytes d r unit contentType :
  loadCalls (convertImageBytes d r unit contentType).2 = 0%nat.
Proof.
  unfold convertImageBytes.
  repeat (match goal with
          | |- context [match ?x with _ => _ end] => destruct x
          | |- context [if ?x then _ else _] => destruct x
          end; simpl; try done).
Qed.

(** A successful third stage stores the image it returns. *)
Lemma Convert_cold_success_stored d now unit incrementID s r s' :
  Convert_cold d now unit incrementID s = ((r, None), s') →
  ∃ i, globalPlacedImages s' !! kittyimg.ID unit = Some (anyDecodedImage i)
       ∧ r = payload (SixelData i).
Proof.
  rewrite Convert_cold_run.
  destruct (kittyimg.Load unit (world s)) as [[err|[imageBody contentType]] w'];
    [done|]. simpl.
  destruct (convertImageBytes d imageBody unit contentType).1 as [err|decoded];
    [done|].
  intros [= <- <-]. eexists. simpl. by rewrite lookup_insert_eq.
Qed.

Lemma Convert_uncached_success_stored d now unit s r s' :
  Convert_uncached d now unit s = ((r, None), s') →
  ∃ i, globalPlacedImages s' !! kittyimg.ID unit = Some (anyDecodedImage i)
       ∧ r = payload (SixelData i).
Proof.
  rewrite Convert_uncached_run. simpl.
  destruct (openCached unit (disk s)).1.1.2.
  - intros [= <- <-]. eexists. simpl. by rewrite lookup_insert_eq.
  - apply Convert_cold_success_stored.
Qed.

(** Whatever stage answers, a successful [Convert] leaves in the session
    cache the image whose sixel data it returns. *)
Lemma Convert_success_stored d now unit s r s' :
  Convert d now unit s = ((r, None), s') →
  ∃ i, globalPlacedImages s' !! kittyimg.ID unit = Some (anyDecodedImage i)
       ∧ r = payload (SixelData i).
Proof.
  destruct (globalPlacedImages s !! kittyimg.ID unit) as [[i|type]|] eqn:Hplaced.
  - rewrite (Convert_session_hit _ _ _ _ i Hplaced). intros [= <- <-].
    exists (withLastUsed now i). simpl. by rewrite lookup_insert_eq.
  - rewrite (Convert_session_other _ _ _ _ type Hplaced).
    apply Convert_uncached_success_stored.
  - rewrite (Convert_session_miss _ _ _ _ Hplaced).
    apply Convert_uncached_success_stored.
Qed.

Lemma Convert_cold_loads_once d now unit incrementID s :
  loadCalls (trace (Convert_cold d now unit incrementID s).2)
  = S (loadCalls (trace s)).
Proof.
  rewrite Convert_cold_run.
  destruct (kittyimg.Load unit (world s)) as [[err|[imageBody contentType]] w'];
    [done|]. simpl.
  pose proof (loadCalls_convertImageBytes d imageBody unit contentType) as Hnone.
  destruct (convertImageBytes d imageBody unit contentType).1 as [err|decoded];
    simpl; rewrite ?loadCalls_app, ?loadCalls_warnIfSome, Hnone; done.
Qed.

Lemma Convert_uncached_loads_at_most_once d now unit s :
  (loadCalls (trace (Convert_uncached d now unit s).2)
   ≤ S (loadCalls (trace s)))%nat.
Proof.
  rewrite Convert_uncached_run. simpl.
  destruct (openCached unit (disk s)).1.1.2; simpl.
  - rewrite loadCalls_app, loadCalls_warnIfSome. simpl. lia.
  - rewrite Convert_cold_loads_once. simpl.
    rewrite loadCalls_app, loadCalls_warnIfSome. done.
Qed.

Lemma Convert_loads_at_most_once d now unit s :
  (loadCalls (trace (Convert d now unit s).2) ≤ S (loadCalls (trace s)))%nat.
Proof.
  destruct (globalPlacedImages s !! kittyimg.ID unit) as [[i|type]|] eqn:Hplaced.
  - rewrite (Convert_session_hit _ _ _ _ i Hplaced). simpl. lia.
  - rewrite (Convert_session_other _ _ _ _ type Hplaced).
    etrans; [apply Convert_uncached_loads_at_most_once|done].
  - rewrite (Convert_session_miss _ _ _ _ Hplaced).
    apply Convert_uncached_loads_at_most_once.
Qed.

(** C7. Every successful [Convert], whichever of the three stages answers,
    returns a self-contained payload: [PrepareCommand] is empty and
    [ReplacementText] is the whole sixel escape sequence of the image that
    the session cache now holds for the unit. *)
Theorem Convert_payload_self_contained d now unit s r s' :
  Convert d now unit s = ((r, None), s') →
  kittyimg.PrepareCommand r = ""
  ∧ ∃ i, globalPlacedImages s' !! kittyimg.ID unit = Some (anyDecodedImage i)
         ∧ kittyimg.ReplacementText r = SixelData i.
Proof.
  intros (i & Hstored & ->)%Convert_success_stored. split; [done|].
  by exists i.
Qed.

(** C1, as amended. When a call of [Convert] succeeds, a second call for a
    unit with the same ID is answered from the session cache: it returns the
    same payload with no error, invokes no loader, logs nothing and touches
    neither the file system nor the world; so the two calls together invoke
    a loader at most once. *)
Theorem Convert_again_served_from_session d now1 now2 unit1 unit2 s r1 s1 :
  kittyimg.ID unit1 = kittyimg.ID unit2 →
  Convert d now1 unit1 s = ((r1, None), s1) →
  ∃ s2,
    Convert d now2 unit2 s1 = ((r1, None), s2)
    ∧ trace s2 = trace s1 ∧ disk s2 = disk s1 ∧ world s2 = world s1
    ∧ (loadCalls (trace s2) ≤ S (loadCalls (trace s)))%nat.
Proof.
  intros Hid Hfirst.
  pose proof (Convert_loads_at_most_once d now1 unit1 s) as Hloads.
  rewrite Hfirst in Hloads. simpl in Hloads.
  apply Convert_success_stored in Hfirst as (i & Hstored & ->).
  rewrite Hid in Hstored.
  rewrite (Convert_session_hit _ _ _ _ i Hstored).
  eexists. split; [reflexivity|]. simpl. done.
Qed.

(** Without an image for the ID in the session cache, [Convert] is its
    second stage, run on a state that differs at most by the removed entry of
    a foreign type and the record of that removal. *)
Lemma Convert_no_session_image d now unit s :
  (∀ i, globalPlacedImages s !! kittyimg.ID unit ≠ Some (anyDecodedImage i)) →
  ∃ s0,
    Convert d now unit s = Convert_uncached d now unit s0
    ∧ globalPlacedImages s0 = delete (kittyimg.ID unit) (globalPlacedImages s)
    ∧ globalImagePlacementIDCounter s0 = globalImagePlacementIDCounter s
    ∧ disk s0 = disk s ∧ world s0 = world s
    ∧ loadCalls (trace s0) = loadCalls (trace s).
Proof.
  intros Hnohit.
  destruct (globalPlacedImages s !! kittyimg.ID unit) as [[i|type]|] eqn:Hplaced.
  - by destruct (Hnohit i).
  - eexists. split; [by apply (Convert_session_other _ _ _ _ type)|]. done.
  - exists s. split; [by apply Convert_session_miss|].
    split; [|done]. symmetry. by apply delete_id.
Qed.

(** C3. On the cold path (no image in the session cache, nothing found in
    the persistent cache, the loader delivered a body): a failure of the
    decode/encode step is returned as the error of [Convert]; and when that
    step succeeds, then whatever the write-back to the persistent cache
    returns, an error included, [Convert] returns the converted payload with
    a nil error and the session cache holds the converted image; a failed
    write-back only leaves a warning in the log. *)
Theorem Convert_cold_path_failures d now unit s img err0 fs1 imageBody contentType w' :
  (∀ i, globalPlacedImages s !! kittyimg.ID unit ≠ Some (anyDecodedImage i)) →
  openCached unit (disk s) = ((img, false, err0), fs1) →
  kittyimg.Load unit (world s) = (inr (imageBody, contentType), w') →
  (∀ err, (convertImageBytes d imageBody unit contentType).1 = inl err →
     (Convert d now unit s).1 = (kittyimg.KittyDisplayUnit_zero, Some err))
  ∧ (∀ decoded written fs2,
       (convertImageBytes d imageBody unit contentType).1 = inr decoded →
       cacheDecodedImage
         (withIDandLastUsed (wrap32 (globalImagePlacementIDCounter s + 1)) now decoded)
         unit fs1 = (written, fs2) →
       (Convert d now unit s).1 = (payload (SixelData decoded), None)
       ∧ globalPlacedImages (Convert d now unit s).2 !! kittyimg.ID unit
         = Some (anyDecodedImage
                   (withIDandLastUsed (wrap32 (globalImagePlacementIDCounter s + 1))
                      now decoded))
       ∧ ∀ err, written = Some err →
           head (trace (Convert d now unit s).2)
           = Some (EvLog Warn "failed to cache decoded image" (Some err))).
Proof.
  intros Hnohit Hopen Hload.
  destruct (Convert_no_session_image d now unit s Hnohit)
    as (s0 & -> & _ & Hcounter & Hdisk & Hworld & _).
  rewrite Convert_uncached_run, Hdisk, Hcounter, Hopen.
  simpl. rewrite Convert_cold_run. simpl. rewrite Hworld, Hload. split.
  - intros err Hconv. by rewrite Hconv.
  - intros decoded written fs2 Hconv Hwrite. rewrite Hconv, Hwrite. simpl.
    split; [done|]. split; [by rewrite lookup_insert_eq|].
    by intros err ->.
Qed.

(** C8. On the cold path (no image in the session cache, nothing found in
    the persistent cache), when the loader fails or the decode/encode step
    fails, [Convert] returns that error with the zero-valued payload; no
    session-cache entry is stored for the ID (the session cache is as it was,
    less an entry of a foreign type under that ID if there was one), and no
    file of the persistent cache is written. *)
Theorem Convert_cold_failure_stores_nothing d now unit s img err0 fs1 err :
  (∀ i, globalPlacedImages s !! kittyimg.ID unit ≠ Some (anyDecodedImage i)) →
  openCached unit (disk s) = ((img, false, err0), fs1) →
  (∃ w', kittyimg.Load unit (world s) = (inl err, w'))
  ∨ (∃ imageBody contentType w',
       kittyimg.Load unit (world s) = (inr (imageBody, contentType), w')
       ∧ (convertImageBytes d imageBody unit contentType).1 = inl err) →
  ∃ s',
    Convert d now unit s = ((kittyimg.KittyDisplayUnit_zero, Some err), s')
    ∧ globalPlacedImages s' !! kittyimg.ID unit = None
    ∧ globalPlacedImages s' = delete (kittyimg.ID unit) (globalPlacedImages s)
    ∧ (globalPlacedImages s !! kittyimg.ID unit = None →
       globalPlacedImages s' = globalPlacedImages s)
    ∧ files (disk s') = files (disk s).
Proof.
  intros Hnohit Hopen Hfail.
  pose proof (openCached_frame unit (disk s)) as [Hfiles _].
  rewrite Hopen in Hfiles. simpl in Hfiles.
  destruct (Convert_no_session_image d now unit s Hnohit)
    as (s0 & -> & Hplaced & Hcounter & Hdisk & Hworld & _).
  rewrite Convert_uncached_run, Hdisk, Hopen. simpl.
  rewrite Convert_cold_run. simpl. rewrite Hworld.
  assert (Hdeleted :
    delete (kittyimg.ID unit) (globalPlacedImages s) !! kittyimg.ID unit = None)
    by apply lookup_delete_eq.
  destruct Hfail as [(w' & Hload)|(imageBody & contentType & w' & Hload & Hconv)];
    rewrite Hload; simpl; [|rewrite Hconv];
    (eexists; split; [reflexivity|]; simpl; rewrite Hplaced;
     repeat split; [done| |done];
     intros Hmiss; by apply delete_id).
Qed.

(** C9. When the session cache has nothing for the ID and [openCached]
    returns an error (unreadable or undecodable metadata, missing or
    undecompressable payload), [Convert] does not return that error: it logs
    it as a warning, takes the entry as not found and runs the cold path,
    invoking the loader; with a loader and a decode/encode step that
    succeed, [Convert] succeeds, stores the image again and returns it. *)
Theorem Convert_unreadable_cache_is_a_miss d now unit s img found err fs1 :
  globalPlacedImages s !! kittyimg.ID unit = None →
  openCached unit (disk s) = ((img, found, Some err), fs1) →
  found = false
  ∧ Convert d now unit s
    = Convert_cold d now unit (wrap32 (globalImagePlacementIDCounter s + 1))
        (Build_State (globalPlacedImages s)
           (wrap32 (globalImagePlacementIDCounter s + 1)) fs1 (world s)
           (EvLog Warn "failed to open cached image, will re-download" (Some err)
            :: trace s))
  ∧ loadCalls (trace (Convert d now unit s).2) = S (loadCalls (trace s))
  ∧ ∀ imageBody contentType w' decoded,
      kittyimg.Load unit (world s) = (inr (imageBody, contentType), w') →
      (convertImageBytes d imageBody unit contentType).1 = inr decoded →
      (Convert d now unit s).1 = (payload (SixelData decoded), None)
      ∧ globalPlacedImages (Convert d now unit s).2 !! kittyimg.ID unit
        = Some (anyDecodedImage
                  (withIDandLastUsed (wrap32 (globalImagePlacementIDCounter s + 1))
                     now decoded)).
Proof.
  intros Hmiss Hopen.
  pose proof (openCached_error_not_found _ _ _ _ _ _ Hopen) as ->.
  split; [done|].
  rewrite (Convert_session_miss _ _ _ _ Hmiss), Convert_uncached_run, Hopen.
  simpl. split; [done|]. split.
  - by rewrite Convert_cold_loads_once.
  - intros imageBody contentType w' decoded Hload Hconv.
    rewrite Convert_cold_run. simpl. rewrite Hload, Hconv. simpl.
    by rewrite lookup_insert_eq.
Qed.

(** What [Range] with [cleanupEntry] leaves of [placed], entry by entry. *)
Lemma cleanup_fold_lookup now maxAge (placed entries : gmap string any) key :
  map_fold (cleanupEntry now maxAge) placed entries !! key
  = match entries !! key with
    | Some (anyDecodedImage c) =>
        if maxAge <? time.Since now (lastUsed c) then None else placed !! key
    | Some (anyOther _) => None
    | None => placed !! key
    end.
Proof.
  revert key.
  apply (map_fold_weak_ind (λ result visited, ∀ key,
    result !! key
    = match visited !! key with
      | Some (anyDecodedImage c) =>
          if maxAge <? time.Since now (lastUsed c) then None else placed !! key
      | Some (anyOther _) => None
      | None => placed !! key
      end)).
  - intros key. by rewrite lookup_empty.
  - intros k v visited result Hfresh IH key.
    destruct (decide (k = key)) as [->|Hne].
    + rewrite lookup_insert_eq. specialize (IH key). rewrite Hfresh in IH.
      destruct v as [c|type]; simpl.
      * destruct (maxAge <? time.Since now (lastUsed c));
          [by rewrite lookup_delete_eq|done].
      * by rewrite lookup_delete_eq.
    + rewrite lookup_insert_ne by done. rewrite <-IH.
      destruct v as [c|type]; simpl.
      * destruct (maxAge <? time.Since now (lastUsed c));
          [by rewrite lookup_delete_ne|done].
      * by rewrite lookup_delete_ne.
Qed.

(** Two visits of [Range] commute, so the order in which [Range] walks the
    map does not matter: every enumeration of the entries gives what
    [map_fold] gives. *)
Lemma cleanupEntry_comm now maxAge k1 v1 k2 v2 (placed : gmap string any) :
  cleanupEntry now maxAge k1 v1 (cleanupEntry now maxAge k2 v2 placed)
  = cleanupEntry now maxAge k2 v2 (cleanupEntry now maxAge k1 v1 placed).
Proof.
  unfold cleanupEntry.
  destruct v1 as [c1|type1], v2 as [c2|type2];
    repeat (match goal with
            | |- context [if ?b then _ else _] => destruct b
            end); try done; apply delete_delete.
Qed.

Lemma Range_order_irrelevant now maxAge (placed entries : gmap string any)
    (order : list (string * any)) :
  order ≡ₚ map_to_list entries →
  foldr (uncurry (cleanupEntry now maxAge)) placed order
  = map_fold (cleanupEntry now maxAge) placed entries.
Proof.
  intros Horder. rewrite map_fold_foldr.
  apply (foldr_permutation (=) _ _ _ _); [|done].
  intros j1 [k1 v1] j2 [k2 v2] b _ _ _. simpl. apply cleanupEntry_comm.
Qed.

(** [time.Since] is the plain difference unless that leaves [int64]. *)
Lemma Since_exact now t :
  time.minDuration ≤ now - t ≤ time.maxDuration → time.Since now t = now - t.
Proof.
  intros Hrange. unfold time.Since, time.Sub.
  destruct (Z.ltb_spec (now - t) time.minDuration); [lia|].
  destruct (Z.ltb_spec time.maxDuration (now - t)); [lia|done].
Qed.

(** C6. After [CleanupOldImagesCommand(maxAge)] run at clock reading [now],
    the session cache holds an entry exactly when it held that entry before
    and the entry is an image whose age, [time.Since] its last use, does not
    exceed [maxAge]; older entries are gone.  The command is the empty
    string and nothing but the session cache changes. *)
Theorem CleanupOldImagesCommand_keeps_recent d now maxAge s key v :
  (globalPlacedImages (CleanupOldImagesCommand d now maxAge s).2 !! key = Some v
   ↔ globalPlacedImages s !! key = Some v
     ∧ ∃ c, v = anyDecodedImage c ∧ time.Since now (lastUsed c) ≤ maxAge)
  ∧ (CleanupOldImagesCommand d now maxAge s).1 = ""
  ∧ disk (CleanupOldImagesCommand d now maxAge s).2 = disk s
  ∧ trace (CleanupOldImagesCommand d now maxAge s).2 = trace s.
Proof.
  split; [|done]. unfold CleanupOldImagesCommand. simpl.
  rewrite cleanup_fold_lookup.
  destruct (globalPlacedImages s !! key) as [[c|type]|] eqn:Hplaced.
  - destruct (Z.ltb_spec maxAge (time.Since now (lastUsed c))) as [Hold|Hrecent].
    + split; [done|]. intros [[= <-] (c' & [= <-] & Hage)]. lia.
    + split.
      * intros [= <-]. split; [done|]. by exists c.
      * by intros [[= <-] _].
  - split; [done|]. by intros [[= <-] (c & [=] & _)].
  - split; [done|]. by intros [[=] _].
Qed.

(** The session cache of a fresh process holds images only, and [Convert]
    and [CleanupOldImagesCommand] keep it so: the entries of a foreign type
    that both functions guard against never arise from the package itself. *)
Lemma imagesOnly_empty : imagesOnly ∅.
Proof. intros key value. by rewrite lookup_empty. Qed.

Lemma imagesOnly_insert placed key i :
  imagesOnly placed → imagesOnly (<[key := anyDecodedImage i]> placed).
Proof.
  intros Hplaced k v. destruct (decide (key = k)) as [->|Hne].
  - rewrite lookup_insert_eq. intros [= <-]. by exists i.
  - rewrite lookup_insert_ne by done. apply Hplaced.
Qed.

Lemma imagesOnly_delete placed key :
  imagesOnly placed → imagesOnly (delete key placed).
Proof.
  intros Hplaced k v. destruct (decide (key = k)) as [->|Hne].
  - by rewrite lookup_delete_eq.
  - rewrite lookup_delete_ne by done. apply Hplaced.
Qed.

Lemma Convert_cold_imagesOnly d now unit incrementID s :
  imagesOnly (globalPlacedImages s) →
  imagesOnly (globalPlacedImages (Convert_cold d now unit incrementID s).2).
Proof.
  intros Hplaced. rewrite Convert_cold_run.
  destruct (kittyimg.Load unit (world s)) as [[err|[imageBody contentType]] w'];
    [done|]. simpl.
  destruct (convertImageBytes d imageBody unit contentType).1 as [err|decoded];
    [done|]. simpl. by apply imagesOnly_insert.
Qed.

Lemma Convert_uncached_imagesOnly d now unit s :
  imagesOnly (globalPlacedImages s) →
  imagesOnly (globalPlacedImages (Convert_uncached d now unit s).2).
Proof.
  intros Hplaced. rewrite Convert_uncached_run. simpl.
  destruct (openCached unit (disk s)).1.1.2.
  - simpl. by apply imagesOnly_insert.
  - by apply Convert_cold_imagesOnly.
Qed.

Lemma Convert_imagesOnly d now unit s :
  imagesOnly (globalPlacedImages s) →
  imagesOnly (globalPlacedImages (Convert d now unit s).2).
Proof.
  intros Hplaced.
  destruct (globalPlacedImages s !! kittyimg.ID unit) as [[i|type]|] eqn:Hlookup.
  - rewrite (Convert_session_hit _ _ _ _ i Hlookup). simpl.
    by apply imagesOnly_insert.
  - by destruct (Hplaced _ _ Hlookup).
  - rewrite (Convert_session_miss _ _ _ _ Hlookup).
    by apply Convert_uncached_imagesOnly.
Qed.

Lemma CleanupOldImagesCommand_imagesOnly d now maxAge s :
  imagesOnly (globalPlacedImages s) →
  imagesOnly (globalPlacedImages (CleanupOldImagesCommand d now maxAge s).2).
Proof.
  intros Hplaced key value. unfold CleanupOldImagesCommand. simpl.
  rewrite cleanup_fold_lookup.
  destruct (globalPlacedImages s !! key) as [[c|type]|] eqn:Hlookup; [|done..].
  destruct (maxAge <? time.Since now (lastUsed c)); [done|].
  intros [= <-]. by exists c.
Qed.

(** C2, as amended. Take a unit whose first conversion ran the cold path and
    whose write-back to the persistent cache returned no error.  If the
    file system does not refuse to read the unit's two cache files, the
    metadata decodes to what was encoded and the payload decompresses to
    what was compressed, then, once the entry is removed from the session
    cache, a second [Convert] of the unit is served from the persistent
    cache: no loader is invoked, nothing is logged, the payload is that of
    the first conversion and the image stored again has its column count and
    its sixel data. *)
Theorem Convert_roundtrip_through_persistent_cache
    d now1 now2 unit s img0 err0 fs1 imageBody contentType w1 decoded fs2 :
  let id := kittyimg.ID unit in
  let dir := cacheDirectory (kittyimg.Directory unit) in
  let incrementID := wrap32 (globalImagePlacementIDCounter s + 1) in
  globalPlacedImages s !! id = None →
  openCached unit (disk s) = ((img0, false, err0), fs1) →
  kittyimg.Load unit (world s) = (inr (imageBody, contentType), w1) →
  (convertImageBytes d imageBody unit contentType).1 = inr decoded →
  cacheDecodedImage (withIDandLastUsed incrementID now1 decoded) unit fs1
  = (None, fs2) →
  metaImageFilePath dir id ≠ compressedPath dir id →
  fault (disk s) (OpReadFile (metaImageFilePath dir id)) = None →
  fault (disk s) (OpReadFile (compressedPath dir id)) = None →
  json_Unmarshal_meta
    (json_Encode_meta
       {| meta_Cols := Cols decoded; EncodedPath := compressedPath dir id |})
  = inr {| meta_Cols := Cols decoded; EncodedPath := compressedPath dir id |} →
  zlib_decompress (zlib_compress (list_byte_of_string (SixelData decoded)))
  = inr (list_byte_of_string (SixelData decoded)) →
  ∃ s1 s2,
    Convert d now1 unit s = ((payload (SixelData decoded), None), s1)
    ∧ Convert d now2 unit (placed_Delete id s1).2
      = ((payload (SixelData decoded), None), s2)
    ∧ trace s2 = trace s1
    ∧ world s2 = world s1
    ∧ globalPlacedImages s2 !! id
      = Some (anyDecodedImage
                {| ID := wrap32 (incrementID + 1); Cols := Cols decoded;
                   SixelData := SixelData decoded; lastUsed := now2 |}).
Proof.
  intros id dir incrementID Hmiss Hopen Hload Hconv Hwrite Hne Hr1 Hr2 Hjson Hzlib.
  pose proof (openCached_frame unit (disk s)) as [_ Hfault1].
  rewrite Hopen in Hfault1. simpl in Hfault1.
  destruct (cacheDecodedImage_written _ _ _ _ Hwrite Hne)
    as (Hmk & Hfault2 & Hmeta & Hpayload).
  fold id dir in Hmeta, Hpayload.
  assert (Hread :
    (openCached unit fs2).1
    = ({| ID := 0; Cols := Cols decoded;
          SixelData := string_of_list_byte (list_byte_of_string (SixelData decoded));
          lastUsed := 0 |}, true, None)).
  { apply (openCached_found unit fs2
             {| meta_Cols := Cols decoded; EncodedPath := compressedPath dir id |}
             (zlib_compress (list_byte_of_string (SixelData decoded))));
      try done.
    - unfold mkdirOK in *. by rewrite Hfault2.
    - fold id dir. by rewrite Hfault2, Hfault1.
    - simpl. by rewrite Hfault2, Hfault1. }
  rewrite string_of_list_byte_of_string in Hread.
  destruct (openCached unit fs2) as [[[img found] err] fs3] eqn:Hopen2.
  simpl in Hread. injection Hread as -> -> ->.
  destruct (Convert d now1 unit s) as [res1 s1] eqn:Hfirst.
  rewrite (Convert_session_miss _ _ _ _ Hmiss), Convert_uncached_run, Hopen
    in Hfirst.
  simpl in Hfirst. rewrite Convert_cold_run in Hfirst. simpl in Hfirst.
  rewrite Hload, Hconv in Hfirst. simpl in Hfirst.
  fold incrementID in Hfirst. rewrite Hwrite in Hfirst. simpl in Hfirst.
  injection Hfirst as <- <-.
  eexists. eexists. split; [reflexivity|].
  rewrite Convert_session_miss by (unfold placed_Delete; simpl; apply lookup_delete_eq).
  rewrite Convert_uncached_run. unfold placed_Delete. simpl.
  rewrite Hopen2. simpl.
  split; [reflexivity|]. simpl. split; [done|]. split; [done|].
  fold id. by rewrite lookup_insert_eq.
Qed.

End Manager.

Section OnFixture.
Import sixelfixture.
#[local] Existing Instance sixelfixture.ext.

(** C1, counterexample. A unit whose loader fails: the first call fails and
    stores nothing, the second call invokes the loader again. *)
Lemma Convert_twice_failing_loader_loads_twice :
  ¬ convert_twice_loads_at_most_once.
Proof.
  intros Hclaim.
  destruct (Hclaim ext ()%type manager 100 200 (emoteUnit loadFails) (fresh noFault))
    as [Hloads _].
  vm_compute in Hloads. lia.
Qed.

(** C2, counterexample. On a file system that cannot be written the first
    conversion succeeds (the failed write-back is only logged); after the
    entry is removed from the session cache nothing is on disk, and the
    second conversion invokes the loader again. *)
Lemma Convert_reconvert_after_failed_write_back_loads_again :
  ¬ reconvert_never_loads.
Proof.
  intros Hclaim.
  pose (first := Convert manager 100 (emoteUnit (loadOK "abc")) (fresh readOnly)).
  destruct (Hclaim ext ()%type manager 100 200 (emoteUnit (loadOK "abc"))
              (fresh readOnly) first.1.1 first.2)
    as (s2 & Hrun & Hloads).
  - reflexivity.
  - vm_compute. reflexivity.
  - vm_compute. reflexivity.
  - apply (f_equal (λ run, loadCalls (trace run.2))) in Hrun.
    simpl in Hrun. rewrite <-Hrun in Hloads.
    vm_compute in Hloads. discriminate Hloads.
Qed.

(** C1, witness: a fresh process converts an emote twice; one load. *)
Lemma Convert_again_served_from_session_witness :
  ∃ r1 s1 s2,
    Convert manager 100 (emoteUnit (loadOK "abc")) (fresh noFault)
    = ((r1, None), s1)
    ∧ Convert manager 200 (emoteUnit loadFails) s1 = ((r1, None), s2)
    ∧ loadCalls (trace s2) = 1%nat.
Proof.
  pose (first := Convert manager 100 (emoteUnit (loadOK "abc")) (fresh noFault)).
  assert (Hfirst : first = ((first.1.1, None), first.2))
    by (vm_compute; reflexivity).
  destruct (Convert_again_served_from_session manager 100 200
              (emoteUnit (loadOK "abc")) (emoteUnit loadFails) (fresh noFault)
              first.1.1 first.2 eq_refl Hfirst)
    as (s2 & Hsecond & Htrace & _).
  exists first.1.1, first.2, s2. split; [exact Hfirst|]. split; [exact Hsecond|].
  rewrite Htrace. vm_compute. reflexivity.
Defined.

(** C7, witness: the payload of a fresh conversion. *)
Lemma Convert_payload_self_contained_witness :
  ∃ r s',
    Convert manager 100 (emoteUnit (loadOK "abc")) (fresh noFault) = ((r, None), s')
    ∧ kittyimg.PrepareCommand r = ""
    ∧ ∃ i, globalPlacedImages s' !! "ffz.1" = Some (anyDecodedImage i)
           ∧ kittyimg.ReplacementText r = SixelData i.
Proof.
  pose (first := Convert manager 100 (emoteUnit (loadOK "abc")) (fresh noFault)).
  assert (Hfirst : first = ((first.1.1, None), first.2))
    by (vm_compute; reflexivity).
  exists first.1.1, first.2. split; [exact Hfirst|].
  exact (Convert_payload_self_contained manager 100 (emoteUnit (loadOK "abc"))
           (fresh noFault) first.1.1 first.2 Hfirst).
Defined.

(** C3, witness: on a file system that cannot be written, the conversion
    still succeeds and the image is in the session cache. *)
Lemma Convert_cold_path_failures_witness :
  (Convert manager 100 (emoteUnit (loadOK "abc")) (fresh readOnly)).1
  = (payload (String "027" "Pqabc"), None)
  ∧ head (trace (Convert manager 100 (emoteUnit (loadOK "abc")) (fresh readOnly)).2)
    = Some (EvLog Warn "failed to cache decoded image"
              (Some (ErrNew "operation not permitted"))).
Proof.
  pose (opened := openCached (emoteUnit (loadOK "abc")) (disk (fresh readOnly))).
  pose (decoded := {| ID := 0; Cols := 3; SixelData := String "027" "Pqabc";
                      lastUsed := 0 |}).
  pose (written := cacheDecodedImage (withIDandLastUsed 1 100 decoded)
                     (emoteUnit (loadOK "abc")) opened.2).
  destruct (Convert_cold_path_failures manager 100 (emoteUnit (loadOK "abc"))
              (fresh readOnly) opened.1.1.1 opened.1.2 opened.2
              (list_byte_of_string "abc") "image/png" ())
    as [_ Hsuccess].
  - intros i. vm_compute. discriminate.
  - vm_compute. reflexivity.
  - reflexivity.
  - destruct (Hsuccess decoded (Some (ErrNew "operation not permitted")) written.2)
      as (Hresult & _ & Hlog).
    + vm_compute. reflexivity.
    + vm_compute. reflexivity.
    + split; [exact Hresult|]. by apply Hlog.
Defined.

(** C8, witness: a loader that fails on a fresh process. *)
Lemma Convert_cold_failure_stores_nothing_witness :
  ∃ s',
    Convert manager 100 (emoteUnit loadFails) (fresh noFault)
    = ((kittyimg.KittyDisplayUnit_zero, Some (ErrNew "connection refused")), s')
    ∧ globalPlacedImages s' !! "ffz.1" = None
    ∧ files (disk s') = ∅.
Proof.
  pose (opened := openCached (emoteUnit loadFails) (disk (fresh noFault))).
  destruct (Convert_cold_failure_stores_nothing manager 100 (emoteUnit loadFails)
              (fresh noFault) opened.1.1.1 opened.1.2 opened.2
              (ErrNew "connection refused"))
    as (s' & Hrun & Hnone & _ & _ & Hfiles).
  - intros i. vm_compute. discriminate.
  - vm_compute. reflexivity.
  - left. by exists ().
  - by exists s'.
Defined.

(** C9, witness: over the corrupt metadata file the conversion goes through
    the cold path and succeeds. *)
Lemma Convert_unreadable_cache_is_a_miss_witness :
  (Convert manager 100 (emoteUnit (loadOK "abc")) corrupt).1
  = (payload (String "027" "Pqabc"), None)
  ∧ loadCalls (trace (Convert manager 100 (emoteUnit (loadOK "abc")) corrupt).2)
    = 1%nat.
Proof.
  pose (opened := openCached (emoteUnit (loadOK "abc")) (disk corrupt)).
  destruct (Convert_unreadable_cache_is_a_miss manager 100
              (emoteUnit (loadOK "abc")) corrupt opened.1.1.1 opened.1.1.2
              (ErrNew "unexpected end of JSON input") opened.2)
    as (_ & _ & Hloads & Hsuccess).
  - reflexivity.
  - vm_compute. reflexivity.
  - destruct (Hsuccess (list_byte_of_string "abc") "image/png" ()
                {| ID := 0; Cols := 3; SixelData := String "027" "Pqabc";
                   lastUsed := 0 |}) as [Hresult _].
    + reflexivity.
    + vm_compute. reflexivity.
    + split; [exact Hresult|exact Hloads].
Defined.

(** C2, witness: on a file system that refuses nothing, the reconversion
    after eviction reads the image back; the loader ran once. *)
Lemma Convert_roundtrip_through_persistent_cache_witness :
  ∃ s1 s2,
    Convert manager 100 (emoteUnit (loadOK "abc")) (fresh noFault)
    = ((payload (String "027" "Pqabc"), None), s1)
    ∧ Convert manager 200 (emoteUnit (loadOK "abc")) (placed_Delete "ffz.1" s1).2
      = ((payload (String "027" "Pqabc"), None), s2)
    ∧ loadCalls (trace s2) = 1%nat
    ∧ globalPlacedImages s2 !! "ffz.1"
      = Some (anyDecodedImage
                {| ID := 2; Cols := 3; SixelData := String "027" "Pqabc";
                   lastUsed := 200 |}).
Proof.
  pose (opened := openCached (emoteUnit (loadOK "abc")) (disk (fresh noFault))).
  pose (decoded := {| ID := 0; Cols := 3; SixelData := String "027" "Pqabc";
                      lastUsed := 0 |}).
  pose (written := cacheDecodedImage (withIDandLastUsed 1 100 decoded)
                     (emoteUnit (loadOK "abc")) opened.2).
  destruct (Convert_roundtrip_through_persistent_cache manager 100 200
              (emoteUnit (loadOK "abc")) (fresh noFault)
              opened.1.1.1 opened.1.2 opened.2
              (list_byte_of_string "abc") "image/png" () decoded written.2)
    as (s1 & s2 & Hfirst & Hsecond & Htrace & _ & Hstored).
  - reflexivity.
  - vm_compute. reflexivity.
  - reflexivity.
  - vm_compute. reflexivity.
  - vm_compute. reflexivity.
  - vm_compute. discriminate.
  - reflexivity.
  - reflexivity.
  - vm_compute. reflexivity.
  - reflexivity.
  - exists s1, s2. split; [exact Hfirst|]. split; [exact Hsecond|].
    split; [|exact Hstored].
    rewrite Htrace. apply (f_equal (λ run, loadCalls (trace run.2))) in Hfirst.
    simpl in Hfirst. rewrite <-Hfirst. vm_compute. reflexivity.
Defined.

(** C6 on an example: with a threshold of 60 at clock 100, the entry last
    used at 50 stays, the one last used at 10 and the one of a foreign type
    go. *)
Example CleanupOldImagesCommand_example :
  let image t := anyDecodedImage {| ID := 1; Cols := 3; SixelData := "Pq"; lastUsed := t |} in
  let s := Build_State (World := ())
             (<["recent" := image 50]> (<["old" := image 10]>
              (<["foreign" := anyOther "string"]> ∅)))
             3 (disk (fresh noFault)) () [] in
  map_to_list (globalPlacedImages (CleanupOldImagesCommand manager 100 60 s).2)
  = [("recent", image 50)].
Proof. vm_compute. reflexivity. Qed.

End OnFixture.
End SixelSpec.

(** * Further properties of package emote *)
Module EmoteMore.
Import emote.

(** X1. Looking a text up in two sets laid end to end finds what the first
    set has for it, and falls back to the second set only when the first has
    nothing: an emote appended later never shadows an earlier one. *)
Theorem GetByText_app (first second : EmoteSet) (text : string) :
  GetByText (first ++ second) text
  = if (GetByText first text).2 then GetByText first text
    else GetByText second text.
Proof.
  induction first as [|e first IH]; simpl; [done|].
  destruct (String.eqb (Text e) text); [done|apply IH].
Qed.

(** X2. The found flag is true exactly when some emote of the set has the
    text; the emote returned with it is then a member of the set that has
    the text, and otherwise it is the zero value. *)
Theorem GetByText_found_iff (set : EmoteSet) (text : string) :
  ((GetByText set text).2 = true ↔ ∃ e, e ∈ set ∧ Text e = text)
  ∧ ((GetByText set text).2 = true →
     (GetByText set text).1 ∈ set ∧ Text (GetByText set text).1 = text)
  ∧ ((GetByText set text).2 = false → (GetByText set text).1 = Emote_zero).
Proof.
  induction set as [|x rest (IHiff & IHin & IHzero)]; simpl.
  - split; [|done]. split; [done|]. by intros (e & ?%not_elem_of_nil & _).
  - destruct (String.eqb_spec (Text x) text) as [Heq|Hne]; simpl.
    + split; [|split; [|done]].
      * split; [|done]. intros _. exists x. split; [left|done].
      * intros _. split; [left|done].
    + split; [|split; [|done]].
      * rewrite IHiff. split.
        -- intros (e & Hin & He). exists e. split; [by right|done].
        -- intros (e & [->|Hin]%elem_of_cons & He); [done|]. by exists e.
      * intros Hfound. destruct (IHin Hfound). split; [by right|done].
Qed.



End EmoteMore.

(** * Further properties of package ffz *)
Module FfzMore.
Import ffz ffzchannel ffzprops FfzSpec.

Section Client.
Context `{Ext : Externals}.

Lemma fold_collect (entries : list (string * emoteSet)) (emotes : list Emote) :
  fold_left (λ emotes entry, emotes ++ Emoticons entry.2) entries emotes
  = emotes ++ mjoin ((λ entry, Emoticons entry.2) <$> entries).
Proof.
  revert emotes. induction entries as [|entry entries IH]; intros emotes; simpl.
  - by rewrite app_nil_r.
  - by rewrite IH, <-app_assoc.
Qed.

(** X4. When the request succeeds, [GetChannelEmotes] returns, up to the
    order in which Go visits the map, the emotes of all sets of the response,
    each as often as it occurs, whatever the keys of the sets are. *)
Theorem GetChannelEmotes_all_sets
    (unmarshal : list byte → string + channelResponse) (a : API)
    (channelID : string)
    (rangeSets : gmap string emoteSet → list (string * emoteSet))
    (resp : channelResponse) :
  doRequest unmarshal a "GET" ("/room/id/" +:+ channelID) None = inr resp →
  rangeSets (Sets' resp) ≡ₚ map_to_list (Sets' resp) →
  ∃ emotes,
    GetChannelEmotes unmarshal a channelID rangeSets = inr emotes
    ∧ emotes ≡ₚ mjoin ((λ entry, Emoticons entry.2) <$> map_to_list (Sets' resp))
    ∧ ∀ e, e ∈ emotes ↔
           ∃ key set, Sets' resp !! key = Some set ∧ e ∈ Emoticons set.
Proof.
  intros Hreq Horder. unfold GetChannelEmotes, collectEmotes. rewrite Hreq.
  eexists. split; [reflexivity|]. rewrite fold_collect, app_nil_l.
  assert (Hperm :
    mjoin ((λ entry : string * emoteSet, Emoticons entry.2)
           <$> rangeSets (Sets' resp))
    ≡ₚ mjoin ((λ entry : string * emoteSet, Emoticons entry.2)
              <$> map_to_list (Sets' resp))) by (by rewrite Horder).
  split; [exact Hperm|].
  intros e. rewrite Hperm, list_elem_of_join. split.
  - intros (l & He & ([key set] & -> & Hin)%list_elem_of_fmap).
    apply elem_of_map_to_list in Hin. by exists key, set.
  - intros (key & set & Hlookup & He). exists (Emoticons set). split; [done|].
    apply list_elem_of_fmap. exists (key, set). split; [done|].
    by apply elem_of_map_to_list.
Qed.

(** X5. [doRequest] returns data exactly when the request could be built,
    the client delivered a response, its body could be read, its status code
    is within 200-299 and the body decodes to that data. *)
Theorem doRequest_success_iff {T : Type} (unmarshal : list byte → string + T)
    (api : API) (method url : string) (body : option (list byte)) (data : T) :
  doRequest unmarshal api method url body = inr data
  ↔ ∃ req resp respBody,
      http_NewRequestWithContext method (baseURL +:+ url) body = inr req
      ∧ client api req = inr resp
      ∧ http.Body resp = inr respBody
      ∧ 200 ≤ http.StatusCode resp < 300
      ∧ unmarshal respBody = inr data.
Proof.
  unfold doRequest. split.
  - destruct (http_NewRequestWithContext method (baseURL +:+ url) body)
      as [msg|req] eqn:Hreq; [done|].
    destruct (client api req) as [msg|resp] eqn:Hdo; [done|].
    destruct (http.Body resp) as [msg|respBody] eqn:Hbody; [done|].
    destruct ((http.StatusCode resp <? 200) || (http.StatusCode resp >=? 300))
      eqn:Hcode.
    { unfold json_Unmarshal_APIError.
      by destruct (json_Unmarshal_message respBody) as [msg|[m|]]. }
    destruct (unmarshal respBody) as [msg|data'] eqn:Hdec; [done|].
    intros [= <-]. exists req, resp, respBody.
    apply orb_false_iff in Hcode as [Hlo%Z.ltb_ge Hhi].
    rewrite Z.geb_leb in Hhi. apply Z.leb_gt in Hhi.
    repeat split; done.
  - intros (req & resp & respBody & -> & -> & -> & Hcode & ->).
    replace ((http.StatusCode resp <? 200) || (http.StatusCode resp >=? 300))
      with false by (symmetry; apply orb_false_iff; lia).
    done.
Qed.

(** X6. An [APIError] returned by [doRequest] always stems from a response
    that was received and read, carries that response's status code and
    status text, and its status code is never within 200-299. *)
Theorem doRequest_APIError_inv {T : Type} (unmarshal : list byte → string + T)
    (api : API) (method url : string) (body : option (list byte)) (e : APIError) :
  doRequest unmarshal api method url body = inl (ErrAPI e) →
  ∃ req resp respBody,
    http_NewRequestWithContext method (baseURL +:+ url) body = inr req
    ∧ client api req = inr resp
    ∧ http.Body resp = inr respBody
    ∧ StatusCode e = http.StatusCode resp
    ∧ Status e = http.Status resp
    ∧ (StatusCode e < 200 ∨ 300 ≤ StatusCode e)
    ∧ ∃ message, json_Unmarshal_message respBody = inr message
                 ∧ Message e = default "" message.
Proof.
  unfold doRequest.
  destruct (http_NewRequestWithContext method (baseURL +:+ url) body)
    as [msg|req] eqn:Hreq; [done|].
  destruct (client api req) as [msg|resp] eqn:Hdo; [done|].
  destruct (http.Body resp) as [msg|respBody] eqn:Hbody; [done|].
  destruct ((http.StatusCode resp <? 200) || (http.StatusCode resp >=? 300))
    eqn:Hcode; [|by destruct (unmarshal respBody)].
  unfold json_Unmarshal_APIError.
  destruct (json_Unmarshal_message respBody) as [msg|message] eqn:Hdec; [done|].
  intros Hout. exists req, resp, respBody.
  assert (http.StatusCode resp < 200 ∨ 300 ≤ http.StatusCode resp).
  { apply orb_true_iff in Hcode as [Hlo%Z.ltb_lt|Hhi]; [by left|right].
    rewrite Z.geb_leb in Hhi. by apply Z.leb_le in Hhi. }
  destruct message as [m|]; injection Hout as <-; simpl;
    (repeat split; try done; by eexists).
Qed.

(** X7. [GetGlobalEmotes] reads [default_sets] as a set: two successful
    responses with the same sets whose [default_sets] lists have the same
    elements, in whatever order and however often, give the same emotes. *)
Theorem GetGlobalEmotes_default_sets_as_set (a1 a2 : API)
    (rangeSets : gmap string emoteSet → list (string * emoteSet))
    (resp1 resp2 : globalResponse) :
  doRequest json_Unmarshal_globalResponse a1 "GET" "/set/global" None = inr resp1 →
  doRequest json_Unmarshal_globalResponse a2 "GET" "/set/global" None = inr resp2 →
  Sets resp1 = Sets resp2 →
  (∀ id, id ∈ DefaultSets resp1 ↔ id ∈ DefaultSets resp2) →
  GetGlobalEmotes a1 rangeSets = GetGlobalEmotes a2 rangeSets.
Proof.
  intros Hreq1 Hreq2 Hsets Hdefaults. unfold GetGlobalEmotes.
  rewrite Hreq1, Hreq2, Hsets.
  replace (makeDefaultSets (DefaultSets resp1))
    with (makeDefaultSets (DefaultSets resp2)); [done|].
  apply set_eq. intros id. by rewrite !elem_of_makeDefaultSets.
Qed.

(** X8. Without default sets there are no global emotes: when the response
    lists no default set, or has no sets, [GetGlobalEmotes] succeeds with
    the empty result. *)
Theorem GetGlobalEmotes_nothing_listed (a : API)
    (rangeSets : gmap string emoteSet → list (string * emoteSet))
    (resp : globalResponse) :
  doRequest json_Unmarshal_globalResponse a "GET" "/set/global" None = inr resp →
  rangeSets (Sets resp) ≡ₚ map_to_list (Sets resp) →
  DefaultSets resp = [] ∨ Sets resp = ∅ →
  GetGlobalEmotes a rangeSets = inr [].
Proof.
  intros Hreq Horder Hnone. unfold GetGlobalEmotes. rewrite Hreq. f_equal.
  rewrite fold_appendDefaultSet, app_nil_l.
  destruct Hnone as [Hdefaults|Hsets].
  - rewrite Hdefaults. clear Horder.
    induction (rangeSets (Sets resp)) as [|[key set] entries IH]; [done|].
    rewrite fmap_cons.
    change (contribution [] (key, set) ++ mjoin (contribution [] <$> entries) = []).
    rewrite IH, app_nil_r. unfold contribution.
    destruct (decide _) as [Hkey|]; [|done].
    unfold keyInDefaultSets in Hkey. simpl in Hkey.
    destruct (strconv.Atoi key); [by apply elem_of_nil in Hkey|done].
  - rewrite Hsets in Horder |- *. rewrite map_to_list_empty in Horder.
    by apply Permutation_nil_r in Horder as ->.
Qed.

(** X9. The global emotes are among the emotes of all sets: whatever
    [GetGlobalEmotes] returns for a response is, counted with multiplicity,
    contained in what [collectEmotes] gives for the sets of that response. *)
Theorem GetGlobalEmotes_within_collectEmotes (a : API)
    (rangeSets rangeSets' : gmap string emoteSet → list (string * emoteSet))
    (resp : globalResponse) :
  doRequest json_Unmarshal_globalResponse a "GET" "/set/global" None = inr resp →
  rangeSets (Sets resp) ≡ₚ map_to_list (Sets resp) →
  rangeSets' (Sets resp) ≡ₚ map_to_list (Sets resp) →
  ∃ emotes,
    GetGlobalEmotes a rangeSets = inr emotes
    ∧ emotes ⊆+ collectEmotes rangeSets' (Sets resp).
Proof.
  intros Hreq Horder Horder'. unfold GetGlobalEmotes, collectEmotes.
  rewrite Hreq. eexists. split; [reflexivity|].
  rewrite fold_appendDefaultSet, fold_collect, !app_nil_l, Horder, Horder'.
  clear Horder Horder'.
  induction (map_to_list (Sets resp)) as [|entry entries IH]; [done|].
  rewrite !fmap_cons. simpl. apply submseteq_app; [|done].
  unfold contribution. destruct (decide _); [reflexivity|apply submseteq_nil_l].
Qed.

End Client.

Section OnFixture.
#[local] Existing Instance ffzfixture2.ext.

(** X4, witness: the room has the three sets of the fixture, four emotes. *)
Lemma GetChannelEmotes_all_sets_witness :
  ∃ emotes,
    GetChannelEmotes ffzfixture2.decodeChannel ffzfixture2.plain "22484632"
      map_to_list = inr emotes
    ∧ length emotes = 4%nat.
Proof.
  destruct (GetChannelEmotes_all_sets ffzfixture2.decodeChannel
              ffzfixture2.plain "22484632" map_to_list ffzfixture2.room)
    as (emotes & Hrun & Hperm & _).
  - reflexivity.
  - reflexivity.
  - exists emotes. split; [exact Hrun|]. rewrite Hperm. vm_compute. reflexivity.
Defined.

(** X6, witness: the 404 of the fixture. *)
Lemma doRequest_APIError_inv_witness :
  ∃ resp, client ffzfixture.notFound
            {| http.Method := "GET"; http.URL := baseURL +:+ "/room/id/1";
               http.ReqBody := None |} = inr resp
          ∧ http.StatusCode resp = 404.
Proof.
  destruct (doRequest_APIError_inv ffzfixture2.decodeChannel ffzfixture.notFound
              "GET" "/room/id/1" None
              {| StatusCode := 404; Status := "404 Not Found";
                 Message := "No such room" |})
    as (req & resp & respBody & Hreq & Hdo & _ & Hcode & _).
  - reflexivity.
  - injection Hreq as <-. exists resp. split; [exact Hdo|]. by rewrite <-Hcode.
Defined.

(** X7, witness: listing set 3 twice changes nothing. *)
Lemma GetGlobalEmotes_default_sets_as_set_witness :
  GetGlobalEmotes ffzfixture2.plain map_to_list
  = GetGlobalEmotes ffzfixture2.repeated map_to_list.
Proof.
  apply (GetGlobalEmotes_default_sets_as_set ffzfixture2.plain
           ffzfixture2.repeated map_to_list ffzfixture.globalSets
           ffzfixture2.globalSetsRepeated).
  - reflexivity.
  - reflexivity.
  - reflexivity.
  - intros id. simpl. rewrite !elem_of_cons, elem_of_nil. tauto.
Defined.

(** X8, witness: the response that lists no default set. *)
Lemma GetGlobalEmotes_nothing_listed_witness :
  GetGlobalEmotes ffzfixture2.none map_to_list = inr [].
Proof.
  apply (GetGlobalEmotes_nothing_listed ffzfixture2.none map_to_list
           ffzfixture2.globalSetsNone).
  - reflexivity.
  - reflexivity.
  - by left.
Defined.

(** X9, witness: the two global emotes are among the four of all sets. *)
Lemma GetGlobalEmotes_within_collectEmotes_witness :
  ∃ emotes,
    GetGlobalEmotes ffzfixture2.plain map_to_list = inr emotes
    ∧ emotes ⊆+ collectEmotes map_to_list (Sets ffzfixture.globalSets).
Proof.
  apply (GetGlobalEmotes_within_collectEmotes ffzfixture2.plain map_to_list
           map_to_list ffzfixture.globalSets); reflexivity.
Defined.

End OnFixture.
End FfzMore.

(** * Properties of the terminal probing of package main *)
Module TermSpec.

Section WithGraphicsMode.
Context {GraphicsMode : Type} `{EqDecision GraphicsMode}.
Variable GraphicsModeSixel : GraphicsMode.

(** X10. In both builds [hasSixelSupport] answers true in every
    environment: none of the variables it inspects changes the answer. *)
Theorem hasSixelSupport_always (env : os.Environ) :
  termsize_unix.hasSixelSupport env = true
  ∧ termsize_other.hasSixelSupport env = true.
Proof.
  unfold termsize_unix.hasSixelSupport, termsize_other.hasSixelSupport. split.
  - destruct (existsb _ _); [done|]. destruct (String.eqb _ _); [done|].
    by destruct (strings.HasPrefix _ _).
  - destruct (os.LookupEnv env "WT_SESSION").2; [done|].
    by destruct (_ || _).
Qed.

(** X11. On unix, image support in sixel mode is reported in every
    environment; in any other mode it is reported exactly when
    [KITTY_WINDOW_ID] is set, be it to the empty string, or [TERM] is
    [xterm-ghostty]. *)
Theorem hasImageSupport_unix (mode : GraphicsMode) (env : os.Environ) :
  termsize_unix.hasImageSupport GraphicsModeSixel GraphicsModeSixel env = true
  ∧ (mode ≠ GraphicsModeSixel →
     (termsize_unix.hasImageSupport GraphicsModeSixel mode env = true
      ↔ is_Some (env !! "KITTY_WINDOW_ID")
        ∨ env !! "TERM" = Some "xterm-ghostty")).
Proof.
  unfold termsize_unix.hasImageSupport. split.
  - rewrite decide_True by done. apply hasSixelSupport_always.
  - intros Hmode. rewrite decide_False by done.
    unfold os.Getenv, os.LookupEnv. rewrite orb_true_iff.
    destruct (env !! "KITTY_WINDOW_ID") as [id|]; simpl.
    + split; [intros _; left; by eexists|by left].
    + destruct (env !! "TERM") as [term|]; simpl.
      * rewrite String.eqb_eq. split.
        -- intros [?| ->]; [done|by right].
        -- intros [[? ?]|[= ->]]; [done|by right].
      * split; [by intros [?|?]|]. by intros [[? ?]|?].
Qed.

(** X12. In the build without unix, image support is reported exactly for
    the sixel mode, in every environment. *)
Theorem hasImageSupport_other (mode : GraphicsMode) (env : os.Environ) :
  termsize_other.hasImageSupport GraphicsModeSixel mode env = true
  ↔ mode = GraphicsModeSixel.
Proof.
  unfold termsize_other.hasImageSupport.
  destruct (decide (mode = GraphicsModeSixel)) as [->|Hne]; [|done].
  split; [done|]. intros _. apply hasSixelSupport_always.
Qed.

(** X13. In the build without unix, [getTermCellWidthHeight] returns a cell
    of 9 by 20 pixels and no error, whatever the [mode con] command prints
    and whether or not it can be run. *)
Theorem getTermCellWidthHeight_other_constant {float32 : Type}
    (float32_const : Z → float32)
    (strings_Split : string → string → list string)
    (strings_TrimSpace : string → string)
    (output : errors.error + string) :
  termsize_other.getTermCellWidthHeight float32_const strings_Split
    strings_TrimSpace output
  = (float32_const 9, float32_const 20, None).
Proof.
  unfold termsize_other.getTermCellWidthHeight.
  destruct output as [err|output]; [done|].
  destruct (fold_left _ _ _) as [cols rows].
  by destruct ((0 <? cols) && (0 <? rows)).
Qed.

End WithGraphicsMode.

(** The environment decides nothing for sixel, and a kitty window ID that is
    set but empty counts. *)
Example hasImageSupport_unix_example :
  termsize_unix.hasImageSupport (GraphicsMode := bool) true true
    (<["TERM" := "dumb"]> ∅) = true
  ∧ termsize_unix.hasImageSupport (GraphicsMode := bool) true false
      (<["KITTY_WINDOW_ID" := ""]> ∅) = true
  ∧ termsize_unix.hasImageSupport (GraphicsMode := bool) true false
      (<["TERM" := "xterm-256color"]> ∅) = false.
Proof. repeat split; vm_compute; reflexivity. Qed.

End TermSpec.

(** * Further properties of package sixelimg *)
Module SixelMore.
Import errors afero sixelimg sixelprops SixelSpec.

Section Manager.
Context `{Ext : Externals} {World : Type}.
Implicit Types (unit : kittyimg.DisplayUnit World) (s : State (World := World))
  (fs : Fs).

Lemma Convert_cold_other_keys d now unit incrementID s key :
  key ≠ kittyimg.ID unit →
  globalPlacedImages (Convert_cold d now unit incrementID s).2 !! key
  = globalPlacedImages s !! key.
Proof.
  intros Hkey. rewrite Convert_cold_run.
  destruct (kittyimg.Load unit (world s)) as [[err|[imageBody contentType]] w'];
    [done|]. simpl.
  destruct (convertImageBytes d imageBody unit contentType).1 as [err|decoded];
    [done|]. simpl. by rewrite lookup_insert_ne.
Qed.

Lemma Convert_uncached_other_keys d now unit s key :
  key ≠ kittyimg.ID unit →
  globalPlacedImages (Convert_uncached d now unit s).2 !! key
  = globalPlacedImages s !! key.
Proof.
  intros Hkey. rewrite Convert_uncached_run. simpl.
  destruct (openCached unit (disk s)).1.1.2; simpl.
  - by rewrite lookup_insert_ne.
  - by rewrite Convert_cold_other_keys.
Qed.

(** X14. [Convert] touches the session cache under the ID of its unit only:
    the entry of every other key is after the call what it was before,
    whichever stage answers and whether or not the call succeeds. *)
Theorem Convert_other_keys_untouched d now unit s key :
  key ≠ kittyimg.ID unit →
  globalPlacedImages (Convert d now unit s).2 !! key
  = globalPlacedImages s !! key.
Proof.
  intros Hkey.
  destruct (globalPlacedImages s !! kittyimg.ID unit) as [[i|type]|] eqn:Hplaced.
  - rewrite (Convert_session_hit _ _ _ _ i Hplaced). simpl.
    by rewrite lookup_insert_ne.
  - rewrite (Convert_session_other _ _ _ _ type Hplaced).
    rewrite Convert_uncached_other_keys by done. simpl.
    by rewrite lookup_delete_ne.
  - rewrite (Convert_session_miss _ _ _ _ Hplaced).
    by apply Convert_uncached_other_keys.
Qed.

Lemma wrap32_range n : - 2 ^ 31 ≤ wrap32 n < 2 ^ 31.
Proof.
  unfold wrap32. pose proof (Z.mod_pos_bound (n + 2 ^ 31) (2 ^ 32)). lia.
Qed.

Lemma Convert_cold_counter d now unit incrementID s :
  globalImagePlacementIDCounter (Convert_cold d now unit incrementID s).2
  = globalImagePlacementIDCounter s
  ∧ ∀ i, globalPlacedImages (Convert_cold d now unit incrementID s).2
           !! kittyimg.ID unit = Some (anyDecodedImage i) →
         (∀ j, globalPlacedImages s !! kittyimg.ID unit ≠ Some (anyDecodedImage j)) →
         ID i = incrementID ∧ lastUsed i = now.
Proof.
  rewrite Convert_cold_run.
  destruct (kittyimg.Load unit (world s)) as [[err|[imageBody contentType]] w'].
  { split; [done|]. intros i Hi Hno. by destruct (Hno i). }
  simpl.
  destruct (convertImageBytes d imageBody unit contentType).1 as [err|decoded].
  { split; [done|]. intros i Hi Hno. by destruct (Hno i). }
  simpl. split; [done|]. intros i. rewrite lookup_insert_eq. by intros [= <-].
Qed.

(** X15. When the session cache has no image for the unit, [Convert] takes
    the next placement ID, that is the counter plus one wrapped to 32 bits,
    whether it succeeds or fails; an image it stores carries that ID and the
    time of the call; the ID lies in the range of [int32]. *)
Theorem Convert_takes_next_placement_id d now unit s :
  (∀ i, globalPlacedImages s !! kittyimg.ID unit ≠ Some (anyDecodedImage i)) →
  globalImagePlacementIDCounter (Convert d now unit s).2
  = wrap32 (globalImagePlacementIDCounter s + 1)
  ∧ - 2 ^ 31 ≤ globalImagePlacementIDCounter (Convert d now unit s).2 < 2 ^ 31
  ∧ ∀ i, globalPlacedImages (Convert d now unit s).2 !! kittyimg.ID unit
         = Some (anyDecodedImage i) →
         ID i = globalImagePlacementIDCounter (Convert d now unit s).2
         ∧ lastUsed i = now.
Proof.
  intros Hnohit.
  destruct (Convert_no_session_image d now unit s Hnohit)
    as (s0 & -> & Hplaced & Hcounter & _).
  assert (Hnohit0 : ∀ j, globalPlacedImages s0 !! kittyimg.ID unit
                         ≠ Some (anyDecodedImage j)).
  { intros j. by rewrite Hplaced, lookup_delete_eq. }
  rewrite Convert_uncached_run, Hcounter. simpl.
  destruct (openCached unit (disk s0)).1.1.2; simpl.
  - split; [done|]. split; [apply wrap32_range|].
    intros i. rewrite lookup_insert_eq. by intros [= <-].
  - match goal with
    | |- context [Convert_cold d now unit ?id ?st] =>
        destruct (Convert_cold_counter d now unit id st) as [Hc Hstored]
    end.
    rewrite Hc. simpl. split; [done|]. split; [apply wrap32_range|].
    intros i Hi. by apply Hstored.
Qed.

(** What a write-back does to the files: every file is as it was, except
    the two files of the unit, which exist once they are touched; a failed
    write-back leaves the metadata file as it was or empty. *)
Lemma cacheDecodedImage_files decoded unit fs :
  let dir := cacheDirectory (kittyimg.Directory unit) in
  let id := kittyimg.ID unit in
  let result := cacheDecodedImage decoded unit fs in
  (∀ path, files result.2 !! path = files fs !! path
           ∨ ((path = metaImageFilePath dir id ∨ path = compressedPath dir id)
              ∧ is_Some (files result.2 !! path)))
  ∧ (is_Some result.1 →
     metaImageFilePath dir id ≠ compressedPath dir id →
     files result.2 !! metaImageFilePath dir id = files fs !! metaImageFilePath dir id
     ∨ files result.2 !! metaImageFilePath dir id = Some []).
Proof.
  intros dir id result. subst result.
  destruct (cacheDecodedImage decoded unit fs) as [written fs'] eqn:Hwrite.
  simpl. revert Hwrite. unfold cacheDecodedImage.
  destruct (createGetCacheDirectory_run (kittyimg.Directory unit) fs)
    as (fs0 & Hfault0 & Hfiles0 & [[_ Hrun]|(err0 & _ & Hrun)]);
    unfold mbind at 1, F_bind at 1; rewrite Hrun.
  2: { intros [= <- <-]. rewrite Hfiles0. split; [by left|by left]. }
  fold dir id. unfold_F. simpl. rewrite <-Hfiles0.
  set (meta := metaImageFilePath dir id). set (zlib := compressedPath dir id).
  assert (Hcase : ∀ (m : gmap string (list byte)) path,
            m !! path = files fs0 !! path
            ∨ (path = meta ∨ path = zlib) ∧ is_Some (m !! path) →
            ∀ key value, key = meta ∨ key = zlib →
            <[key := value]> m !! path = files fs0 !! path
            ∨ (path = meta ∨ path = zlib) ∧ is_Some (<[key := value]> m !! path)).
  { intros m path Hm key value Hkey.
    destruct (decide (key = path)) as [->|Hne].
    - right. split; [done|]. rewrite lookup_insert_eq. by eexists.
    - rewrite lookup_insert_ne by done. done. }
  destruct (fault fs0 (OpCreate meta)); simpl.
  { intros [= <- <-]. split; by left. }
  destruct (fault fs0 (OpCreate zlib)); simpl.
  { intros [= <- <-]. simpl. split.
    - intros path. apply Hcase; [by left|by left].
    - intros _ _. right. by rewrite lookup_insert_eq. }
  destruct (fault fs0 (OpWrite zlib)); simpl.
  { intros [= <- <-]. simpl. split.
    - intros path. apply Hcase; [|by right]. apply Hcase; [by left|by left].
    - intros _ Hne. right. rewrite lookup_insert_ne by done.
      by rewrite lookup_insert_eq. }
  destruct (fault fs0 (OpWrite meta)); simpl.
  { intros [= <- <-]. simpl. split.
    - intros path. apply Hcase; [|by right]. apply Hcase; [|by right].
      apply Hcase; [by left|by left].
    - intros _ Hne. right. rewrite lookup_insert_ne by done.
      rewrite lookup_insert_ne by done. by rewrite lookup_insert_eq. }
  intros [= <- <-]. simpl. split; [|by intros [? [=]]].
  intros path. apply Hcase; [|by left]. apply Hcase; [|by right].
  apply Hcase; [|by right]. apply Hcase; [by left|by left].
Qed.

Lemma Convert_cold_files d now unit incrementID s path :
  let dir := cacheDirectory (kittyimg.Directory unit) in
  let id := kittyimg.ID unit in
  files (disk (Convert_cold d now unit incrementID s).2) !! path
  = files (disk s) !! path
  ∨ ((path = metaImageFilePath dir id ∨ path = compressedPath dir id)
     ∧ is_Some (files (disk (Convert_cold d now unit incrementID s).2) !! path)).
Proof.
  intros dir id. rewrite Convert_cold_run.
  destruct (kittyimg.Load unit (world s)) as [[err|[imageBody contentType]] w'];
    [by left|]. simpl.
  destruct (convertImageBytes d imageBody unit contentType).1 as [err|decoded];
    [by left|]. simpl.
  apply cacheDecodedImage_files.
Qed.

(** X16. [Convert] writes nothing but the two cache files of its unit, and
    removes nothing: every other file is after the call what it was before,
    and every file that existed before exists after. *)
Theorem Convert_writes_only_own_files d now unit s path :
  (path ≠ metaImageFilePath (cacheDirectory (kittyimg.Directory unit))
            (kittyimg.ID unit) →
   path ≠ compressedPath (cacheDirectory (kittyimg.Directory unit))
            (kittyimg.ID unit) →
   files (disk (Convert d now unit s).2) !! path = files (disk s) !! path)
  ∧ (is_Some (files (disk s) !! path) →
     is_Some (files (disk (Convert d now unit s).2) !! path)).
Proof.
  assert (Hframe :
    files (disk (Convert d now unit s).2) !! path = files (disk s) !! path
    ∨ ((path = metaImageFilePath (cacheDirectory (kittyimg.Directory unit))
                 (kittyimg.ID unit)
        ∨ path = compressedPath (cacheDirectory (kittyimg.Directory unit))
                   (kittyimg.ID unit))
       ∧ is_Some (files (disk (Convert d now unit s).2) !! path))).
  { assert (Huncached : ∀ s0, disk s0 = disk s →
      files (disk (Convert_uncached d now unit s0).2) !! path
      = files (disk s) !! path
      ∨ ((path = metaImageFilePath (cacheDirectory (kittyimg.Directory unit))
                   (kittyimg.ID unit)
          ∨ path = compressedPath (cacheDirectory (kittyimg.Directory unit))
                     (kittyimg.ID unit))
         ∧ is_Some (files (disk (Convert_uncached d now unit s0).2) !! path))).
    { intros s0 Hdisk. rewrite Convert_uncached_run, Hdisk. simpl.
      pose proof (openCached_frame unit (disk s)) as [Hfiles _].
      destruct (openCached unit (disk s)).1.1.2; simpl.
      - left. by rewrite Hfiles.
      - match goal with
        | |- context [Convert_cold d now unit ?id ?st] =>
            pose proof (Convert_cold_files d now unit id st path) as Hcold
        end.
        simpl in Hcold. by rewrite Hfiles in Hcold. }
    destruct (globalPlacedImages s !! kittyimg.ID unit) as [[i|type]|] eqn:Hplaced.
    - rewrite (Convert_session_hit _ _ _ _ i Hplaced). by left.
    - rewrite (Convert_session_other _ _ _ _ type Hplaced). by apply Huncached.
    - rewrite (Convert_session_miss _ _ _ _ Hplaced). by apply Huncached. }
  split.
  - intros Hmeta Hzlib. by destruct Hframe as [?|[[?|?] _]].
  - intros Hbefore. destruct Hframe as [->|[_ ?]]; done.
Qed.

Lemma Convert_cold_error_inv d now unit incrementID s r err s' :
  Convert_cold d now unit incrementID s = ((r, Some err), s') →
  r = kittyimg.KittyDisplayUnit_zero
  ∧ loadCalls (trace s') = S (loadCalls (trace s))
  ∧ globalPlacedImages s' = globalPlacedImages s
  ∧ disk s' = disk s
  ∧ ((∃ w', kittyimg.Load unit (world s) = (inl err, w'))
     ∨ (∃ imageBody contentType w',
          kittyimg.Load unit (world s) = (inr (imageBody, contentType), w')
          ∧ (convertImageBytes d imageBody unit contentType).1 = inl err)).
Proof.
  intros Hrun.
  pose proof (Convert_cold_loads_once d now unit incrementID s) as Hloads.
  rewrite Hrun in Hloads. simpl in Hloads.
  rewrite Convert_cold_run in Hrun.
  destruct (kittyimg.Load unit (world s))
    as [[e|[imageBody contentType]] w'] eqn:Hload.
  - injection Hrun as <- <- <-. repeat split; try done. left. by eexists.
  - simpl in Hrun.
    destruct (convertImageBytes d imageBody unit contentType).1
      as [e|decoded] eqn:Hconv; [|done].
    injection Hrun as <- <- <-. repeat split; try done.
    right. by eexists _, _, _.
Qed.

(** X17. Whenever [Convert] returns an error, the payload is the zero
    value, the loader was invoked exactly once by the call, the error is
    the loader's or that of the decode/encode step, the session cache has
    no entry for the ID and no file has changed. *)
Theorem Convert_error_inv d now unit s r err s' :
  Convert d now unit s = ((r, Some err), s') →
  r = kittyimg.KittyDisplayUnit_zero
  ∧ loadCalls (trace s') = S (loadCalls (trace s))
  ∧ globalPlacedImages s' !! kittyimg.ID unit = None
  ∧ files (disk s') = files (disk s)
  ∧ ((∃ w', kittyimg.Load unit (world s) = (inl err, w'))
     ∨ (∃ imageBody contentType w',
          kittyimg.Load unit (world s) = (inr (imageBody, contentType), w')
          ∧ (convertImageBytes d imageBody unit contentType).1 = inl err)).
Proof.
  intros Hrun.
  assert (Hnohit : ∀ i, globalPlacedImages s !! kittyimg.ID unit
                        ≠ Some (anyDecodedImage i)).
  { intros i Hplaced. by rewrite (Convert_session_hit _ _ _ _ i Hplaced) in Hrun. }
  destruct (Convert_no_session_image d now unit s Hnohit)
    as (s0 & Hconvert & Hplaced0 & _ & Hdisk & Hworld & Hloads).
  rewrite Hconvert, Convert_uncached_run, Hdisk in Hrun. simpl in Hrun.
  pose proof (openCached_frame unit (disk s)) as [Hfiles _].
  destruct (openCached unit (disk s)).1.1.2; [done|].
  apply Convert_cold_error_inv in Hrun
    as (-> & Hcount & Hplaced' & Hdisk' & Hwhy).
  simpl in *. rewrite loadCalls_app, loadCalls_warnIfSome in Hcount.
  rewrite Hworld in Hwhy.
  repeat split; try done.
  - by rewrite Hcount, Hloads.
  - by rewrite Hplaced', Hplaced0, lookup_delete_eq.
  - by rewrite Hdisk'.
Qed.

(** X18. When the session cache has no image for the unit and the
    persistent cache has one, [Convert] returns its sixel data without
    invoking the loader and without changing a file, and promotes it into
    the session cache under a new placement ID and the time of the call. *)
Theorem Convert_persistent_hit d now unit s img err0 fs1 :
  (∀ i, globalPlacedImages s !! kittyimg.ID unit ≠ Some (anyDecodedImage i)) →
  openCached unit (disk s) = ((img, true, err0), fs1) →
  (Convert d now unit s).1 = (payload (SixelData img), None)
  ∧ loadCalls (trace (Convert d now unit s).2) = loadCalls (trace s)
  ∧ world (Convert d now unit s).2 = world s
  ∧ files (disk (Convert d now unit s).2) = files (disk s)
  ∧ globalPlacedImages (Convert d now unit s).2 !! kittyimg.ID unit
    = Some (anyDecodedImage
              {| ID := wrap32 (globalImagePlacementIDCounter s + 1);
                 Cols := Cols img; SixelData := SixelData img;
                 lastUsed := now |}).
Proof.
  intros Hnohit Hopen.
  pose proof (openCached_frame unit (disk s)) as [Hfiles _].
  rewrite Hopen in Hfiles. simpl in Hfiles.
  destruct (Convert_no_session_image d now unit s Hnohit)
    as (s0 & -> & _ & Hcounter & Hdisk & Hworld & Hloads).
  rewrite Convert_uncached_run, Hdisk, Hcounter, Hopen. simpl.
  rewrite loadCalls_app, loadCalls_warnIfSome, lookup_insert_eq. done.
Qed.

(** X19. What [cacheDecodedImage] writes without error, [openCached] reads
    back, whatever the two files held before: the column count and the sixel
    data are those written (given that the reads are not refused, that the
    metadata decodes to what was encoded and the payload decompresses to
    what was compressed); the placement ID and the time of last use are not
    persisted and read back as zero. *)
Theorem cacheDecodedImage_openCached_roundtrip decoded unit fs fs' :
  let dir := cacheDirectory (kittyimg.Directory unit) in
  let id := kittyimg.ID unit in
  cacheDecodedImage decoded unit fs = (None, fs') →
  metaImageFilePath dir id ≠ compressedPath dir id →
  fault fs (OpReadFile (metaImageFilePath dir id)) = None →
  fault fs (OpReadFile (compressedPath dir id)) = None →
  json_Unmarshal_meta
    (json_Encode_meta
       {| meta_Cols := Cols decoded; EncodedPath := compressedPath dir id |})
  = inr {| meta_Cols := Cols decoded; EncodedPath := compressedPath dir id |} →
  zlib_decompress (zlib_compress (list_byte_of_string (SixelData decoded)))
  = inr (list_byte_of_string (SixelData decoded)) →
  (openCached unit fs').1
  = ({| ID := 0; Cols := Cols decoded; SixelData := SixelData decoded;
        lastUsed := 0 |}, true, None).
Proof.
  intros dir id Hwrite Hne Hr1 Hr2 Hjson Hzlib.
  destruct (cacheDecodedImage_written _ _ _ _ Hwrite Hne)
    as (Hmk & Hfault & Hmeta & Hpayload).
  fold id dir in Hmeta, Hpayload.
  rewrite <-(string_of_list_byte_of_string (SixelData decoded)) at 1.
  apply (openCached_found unit fs'
           {| meta_Cols := Cols decoded; EncodedPath := compressedPath dir id |}
           (zlib_compress (list_byte_of_string (SixelData decoded))));
    try done.
  - unfold mkdirOK in *. by rewrite Hfault.
  - fold id dir. by rewrite Hfault.
  - simpl. by rewrite Hfault.
Qed.

(** X20. A write-back that fails never leaves a metadata record behind:
    the metadata file of the unit is then as it was before or empty, and
    every file other than the unit's two is untouched. *)
Theorem cacheDecodedImage_failure_leaves_no_record decoded unit fs err fs' :
  let dir := cacheDirectory (kittyimg.Directory unit) in
  let id := kittyimg.ID unit in
  cacheDecodedImage decoded unit fs = (Some err, fs') →
  metaImageFilePath dir id ≠ compressedPath dir id →
  (files fs' !! metaImageFilePath dir id = files fs !! metaImageFilePath dir id
   ∨ files fs' !! metaImageFilePath dir id = Some [])
  ∧ ∀ path, path ≠ metaImageFilePath dir id → path ≠ compressedPath dir id →
            files fs' !! path = files fs !! path.
Proof.
  intros dir id Hwrite Hne.
  pose proof (cacheDecodedImage_files decoded unit fs) as [Hframe Hmeta].
  rewrite Hwrite in Hframe, Hmeta. simpl in Hframe, Hmeta. split.
  - apply Hmeta; [by eexists|done].
  - intros path Hp1 Hp2. by destruct (Hframe path) as [?|[[?|?] _]].
Qed.

(** X21. [openCached] reports an image as found only when it read it from
    the two files: the metadata file decodes to a record, the file that
    record points to decompresses to the sixel data, and the image returned
    has the record's column count, that sixel data, no error and a zero
    placement ID and time of last use. *)
Theorem openCached_found_inv unit fs img err fs' :
  openCached unit fs = ((img, true, err), fs') →
  err = None ∧ ID img = 0 ∧ lastUsed img = 0
  ∧ ∃ data m compressed sixelData,
      files fs !! metaImageFilePath (cacheDirectory (kittyimg.Directory unit))
                    (kittyimg.ID unit) = Some data
      ∧ json_Unmarshal_meta data = inr m
      ∧ files fs !! EncodedPath m = Some compressed
      ∧ zlib_decompress compressed = inr sixelData
      ∧ Cols img = meta_Cols m
      ∧ SixelData img = string_of_list_byte sixelData.
Proof.
  intros Hopen.
  assert (Hmk : mkdirOK fs (kittyimg.Directory unit)).
  { revert Hopen. unfold openCached.
    destruct (createGetCacheDirectory_run (kittyimg.Directory unit) fs)
      as (fs0 & _ & _ & [[Hmk _]|(err0 & _ & Hrun)]); [done|].
    unfold mbind at 1, F_bind at 1. by rewrite Hrun. }
  pose proof (openCached_run unit fs Hmk) as Hrun.
  rewrite Hopen in Hrun. simpl in Hrun. revert Hrun. unfold ReadFile.
  destruct (fault fs (OpReadFile _)) as [e|]; simpl.
  { by destruct (Is e ErrNotExist). }
  destruct (files fs !! _) as [data|] eqn:Hdata; simpl; [|done].
  destruct (json_Unmarshal_meta data) as [msg|m] eqn:Hjson; [done|].
  destruct (fault fs (OpReadFile (EncodedPath m))) as [e|]; simpl; [done|].
  destruct (files fs !! EncodedPath m) as [compressed|] eqn:Hpayload; simpl;
    [|done].
  destruct (zlib_decompress compressed) as [msg|sixelData] eqn:Hzlib; [done|].
  intros [= -> ->]. repeat split. by exists data, m, compressed, sixelData.
Qed.




(** X23. An animation that decodes to no frame at all is an error, not a
    crash: for avif whatever the unit, and for webp and gif when the unit is
    animated, [convertImageBytes] returns the "has no frames" error of the
    format and logs nothing. *)
Theorem convertImageBytes_no_frames d r unit :
  (avif_DecodeAll r = inr [] →
   convertImageBytes d r unit "image/avif"
   = (inl (ErrNew "avif has no frames"), []))
  ∧ (kittyimg.IsAnimated unit = true → awebp_DecodeAll r = inr [] →
     convertImageBytes d r unit "image/webp"
     = (inl (ErrNew "webp has no frames"), []))
  ∧ (kittyimg.IsAnimated unit = true →
     (∃ w h, gif_DecodeAll r = inr ([], w, h)) →
     convertImageBytes d r unit "image/gif"
     = (inl (ErrNew "gif has no frames"), [])).
Proof.
  unfold convertImageBytes. split; [|split].
  - intros ->. by rewrite decide_True.
  - intros -> ->. rewrite decide_False by done. by rewrite bool_decide_true.
  - intros -> (w & h & ->). rewrite decide_False by done.
    rewrite bool_decide_false by done. by rewrite bool_decide_true.
Qed.

(** X24. For a unit that is not animated the content type matters only in
    so far as it is avif or not: any two content types other than
    [image/avif] give the same result and the same log records. *)
Theorem convertImageBytes_static_content_type d r unit contentType1 contentType2 :
  kittyimg.IsAnimated unit = false →
  contentType1 ≠ "image/avif" → contentType2 ≠ "image/avif" →
  convertImageBytes d r unit contentType1
  = convertImageBytes d r unit contentType2.
Proof.
  intros Hstatic Hct1 Hct2. unfold convertImageBytes.
  rewrite !decide_False by done. by rewrite Hstatic.
Qed.

(** X25. [convertSingleImage] reads nothing of the unit but its right
    padding, and a padding that is not positive is no padding: two units
    with the same padding, or both with a padding of at most zero, give the
    same result for the same image. *)
Theorem convertSingleImage_padding d img unit1 unit2 :
  kittyimg.RightPadding unit1 = kittyimg.RightPadding unit2
  ∨ (kittyimg.RightPadding unit1 ≤ 0 ∧ kittyimg.RightPadding unit2 ≤ 0) →
  convertSingleImage d img unit1 = convertSingleImage d img unit2.
Proof.
  unfold convertSingleImage. intros [->|[Hp1 Hp2]]; [done|].
  destruct (Z.ltb_spec 0 (kittyimg.RightPadding unit1)); [lia|].
  destruct (Z.ltb_spec 0 (kittyimg.RightPadding unit2)); [lia|]. done.
Qed.

(** X26. [CleanupOldImagesCommand] is idempotent: running it again at the
    same clock reading with the same threshold removes nothing more. *)
Theorem CleanupOldImagesCommand_idempotent d now maxAge s :
  globalPlacedImages
    (CleanupOldImagesCommand d now maxAge
       (CleanupOldImagesCommand d now maxAge s).2).2
  = globalPlacedImages (CleanupOldImagesCommand d now maxAge s).2.
Proof.
  apply map_eq. intros key. unfold CleanupOldImagesCommand. simpl.
  rewrite !cleanup_fold_lookup.
  destruct (globalPlacedImages s !! key) as [[c|type]|] eqn:Hplaced;
    rewrite ?Hplaced; try done.
  destruct (maxAge <? time.Since now (lastUsed c)) eqn:Hage; [done|].
  by rewrite Hage.
Qed.

Lemma Since_mono now now' t : now' ≤ now → time.Since now' t ≤ time.Since now t.
Proof.
  intros Hnow. unfold time.Since, time.Sub.
  repeat match goal with
         | |- context [?a <? ?b] => destruct (Z.ltb_spec a b)
         end; unfold time.minDuration, time.maxDuration in *; lia.
Qed.

(** X27. A cleanup with a larger threshold, or at an earlier clock reading,
    keeps at least as much: every entry that survives
    [CleanupOldImagesCommand(maxAge)] at [now] survives it with
    [maxAge' >= maxAge] at [now' <= now], and was in the cache before. *)
Theorem CleanupOldImagesCommand_monotone d now now' maxAge maxAge' s :
  maxAge ≤ maxAge' → now' ≤ now →
  globalPlacedImages (CleanupOldImagesCommand d now maxAge s).2
  ⊆ globalPlacedImages (CleanupOldImagesCommand d now' maxAge' s).2
  ∧ globalPlacedImages (CleanupOldImagesCommand d now maxAge s).2
    ⊆ globalPlacedImages s.
Proof.
  intros Hage Hnow. unfold CleanupOldImagesCommand. simpl.
  split; apply map_subseteq_spec; intros key value;
    rewrite ?cleanup_fold_lookup;
    destruct (globalPlacedImages s !! key) as [[c|type]|]; try done.
  - pose proof (Since_mono now now' (lastUsed c) Hnow).
    destruct (Z.ltb_spec maxAge (time.Since now (lastUsed c))); [done|].
    destruct (Z.ltb_spec maxAge' (time.Since now' (lastUsed c))); [lia|done].
  - by destruct (maxAge <? time.Since now (lastUsed c)).
Qed.

Lemma Convert_cold_success_lastUsed d now unit incrementID s r s' :
  Convert_cold d now unit incrementID s = ((r, None), s') →
  ∃ i, globalPlacedImages s' !! kittyimg.ID unit = Some (anyDecodedImage i)
       ∧ lastUsed i = now ∧ r = payload (SixelData i).
Proof.
  rewrite Convert_cold_run.
  destruct (kittyimg.Load unit (world s)) as [[err|[imageBody contentType]] w'];
    [done|]. simpl.
  destruct (convertImageBytes d imageBody unit contentType).1 as [err|decoded];
    [done|].
  intros [= <- <-]. eexists. simpl. by rewrite lookup_insert_eq.
Qed.

Lemma Convert_success_lastUsed d now unit s r s' :
  Convert d now unit s = ((r, None), s') →
  ∃ i, globalPlacedImages s' !! kittyimg.ID unit = Some (anyDecodedImage i)
       ∧ lastUsed i = now ∧ r = payload (SixelData i).
Proof.
  destruct (globalPlacedImages s !! kittyimg.ID unit) as [[i|type]|] eqn:Hplaced.
  { rewrite (Convert_session_hit _ _ _ _ i Hplaced). intros [= <- <-].
    exists (withLastUsed now i). simpl. by rewrite lookup_insert_eq. }
  all: assert (Hnohit : ∀ i, globalPlacedImages s !! kittyimg.ID unit
                             ≠ Some (anyDecodedImage i))
         by (intros i; by rewrite Hplaced).
  all: destruct (Convert_no_session_image d now unit s Hnohit) as (s0 & -> & _).
  all: rewrite Convert_uncached_run; simpl.
  all: destruct (openCached unit (disk s0)).1.1.2;
         [|by apply Convert_cold_success_lastUsed].
  all: intros [= <- <-]; eexists; simpl; by rewrite lookup_insert_eq.
Qed.

(** X28. An image that [Convert] just returned survives a cleanup as long
    as the time since that call does not exceed the threshold, however old
    its entry was before the call: a session-cache hit refreshes the entry. *)
Theorem Convert_then_cleanup_keeps d now1 now2 maxAge unit s r s1 :
  Convert d now1 unit s = ((r, None), s1) →
  time.Since now2 now1 ≤ maxAge →
  ∃ i, globalPlacedImages (CleanupOldImagesCommand d now2 maxAge s1).2
         !! kittyimg.ID unit = Some (anyDecodedImage i)
       ∧ lastUsed i = now1 ∧ r = payload (SixelData i).
Proof.
  intros (i & Hstored & Hused & ->)%Convert_success_lastUsed Hage.
  exists i. unfold CleanupOldImagesCommand. simpl.
  rewrite cleanup_fold_lookup, Hstored, Hused.
  destruct (Z.ltb_spec maxAge (time.Since now2 now1)); [lia|done].
Qed.

End Manager.

Section OnFixture.
Import sixelfixture sixelfixture2.
#[local] Existing Instance sixelfixture.ext.

(** X14, witness: converting [ffz.1] leaves the key [twitch.25] alone. *)
Lemma Convert_other_keys_untouched_witness :
  globalPlacedImages
    (Convert manager 100 (emoteUnit (loadOK "abc")) (fresh noFault)).2
    !! "twitch.25"
  = globalPlacedImages (fresh noFault) !! "twitch.25".
Proof.
  apply (Convert_other_keys_untouched manager 100 (emoteUnit (loadOK "abc"))
           (fresh noFault) "twitch.25").
  vm_compute. discriminate.
Defined.

(** X15, witness: the first conversion of a fresh process takes ID 1. *)
Lemma Convert_takes_next_placement_id_witness :
  globalImagePlacementIDCounter
    (Convert manager 100 (emoteUnit loadFails) (fresh noFault)).2 = 1.
Proof.
  destruct (Convert_takes_next_placement_id manager 100 (emoteUnit loadFails)
              (fresh noFault)) as [Hcounter _].
  - intros i. vm_compute. discriminate.
  - rewrite Hcounter. reflexivity.
Defined.

(** X17, witness: the loader that fails. *)
Lemma Convert_error_inv_witness :
  loadCalls (trace (Convert manager 100 (emoteUnit loadFails) (fresh noFault)).2)
  = 1%nat.
Proof.
  pose (run := Convert manager 100 (emoteUnit loadFails) (fresh noFault)).
  assert (Hrun : run = ((run.1.1, Some (ErrNew "connection refused")), run.2))
    by (vm_compute; reflexivity).
  destruct (Convert_error_inv manager 100 (emoteUnit loadFails) (fresh noFault)
              run.1.1 (ErrNew "connection refused") run.2 Hrun)
    as (_ & Hloads & _).
  exact Hloads.
Defined.

(** X18, witness: after a restart the image comes from the persistent
    cache, although the loader of the unit now fails. *)
Lemma Convert_persistent_hit_witness :
  (Convert manager 200 (emoteUnit loadFails) restarted).1
  = (payload (String "027" "Pqabc"), None)
  ∧ loadCalls (trace (Convert manager 200 (emoteUnit loadFails) restarted).2)
    = loadCalls (trace restarted).
Proof.
  pose (opened := openCached (emoteUnit loadFails) (disk restarted)).
  assert (Hopen : opened = ((opened.1.1.1, true, opened.1.2), opened.2))
    by (vm_compute; reflexivity).
  destruct (Convert_persistent_hit manager 200 (emoteUnit loadFails) restarted
              opened.1.1.1 opened.1.2 opened.2)
    as (Hresult & Hloads & _).
  - intros i. vm_compute. discriminate.
  - exact Hopen.
  - split; [|exact Hloads]. rewrite Hresult. vm_compute. reflexivity.
Defined.

(** X19, witness: an image written to an empty file system and read back. *)
Lemma cacheDecodedImage_openCached_roundtrip_witness :
  let decoded := {| ID := 7; Cols := 3; SixelData := "Pq#0"; lastUsed := 100 |} in
  (openCached (emoteUnit loadFails)
     (cacheDecodedImage decoded (emoteUnit loadFails) (disk (fresh noFault))).2).1
  = ({| ID := 0; Cols := 3; SixelData := "Pq#0"; lastUsed := 0 |}, true, None).
Proof.
  intros decoded.
  apply (cacheDecodedImage_openCached_roundtrip decoded (emoteUnit loadFails)
           (disk (fresh noFault))).
  - vm_compute. reflexivity.
  - vm_compute. discriminate.
  - reflexivity.
  - reflexivity.
  - vm_compute. reflexivity.
  - reflexivity.
Defined.

(** X20, witness: no room for the payload; the metadata file stays empty. *)
Lemma cacheDecodedImage_failure_leaves_no_record_witness :
  let decoded := {| ID := 7; Cols := 3; SixelData := "Pq#0"; lastUsed := 100 |} in
  let fs := {| files := ∅; dirs := ∅; fault := refusePayload |} in
  files (cacheDecodedImage decoded (emoteUnit loadFails) fs).2
    !! "/home/user/.local/share/chatuino/sixel/emote/ffz.1.sixel.json"
  = Some [].
Proof.
  intros decoded fs.
  destruct (cacheDecodedImage_failure_leaves_no_record decoded
              (emoteUnit loadFails) fs (ErrNew "no space left on device")
              (cacheDecodedImage decoded (emoteUnit loadFails) fs).2)
    as [[Hsame|Hempty] _].
  - vm_compute. reflexivity.
  - vm_compute. discriminate.
  - vm_compute. reflexivity.
  - exact Hempty.
Defined.

(** X21, witness: what [openCached] finds after the restart is in the
    files. *)
Lemma openCached_found_inv_witness :
  ∃ data, files (disk restarted)
            !! "/home/user/.local/share/chatuino/sixel/emote/ffz.1.sixel.json"
          = Some data.
Proof.
  pose (opened := openCached (emoteUnit loadFails) (disk restarted)).
  assert (Hopen : opened = ((opened.1.1.1, true, opened.1.2), opened.2))
    by (vm_compute; reflexivity).
  destruct (openCached_found_inv (emoteUnit loadFails) (disk restarted)
              opened.1.1.1 opened.1.2 opened.2 Hopen)
    as (_ & _ & _ & data & m & compressed & sixelData & Hdata & _).
  exists data. exact Hdata.
Defined.


(** X24, witness: a static image announced as png or as webp. *)
Lemma convertImageBytes_static_content_type_witness :
  convertImageBytes manager (list_byte_of_string "abc") (emoteUnit loadFails)
    "image/png"
  = convertImageBytes manager (list_byte_of_string "abc") (emoteUnit loadFails)
      "image/webp".
Proof.
  apply convertImageBytes_static_content_type.
  - reflexivity.
  - vm_compute. discriminate.
  - vm_compute. discriminate.
Defined.

(** X25, witness: no padding and a negative padding. *)
Lemma convertSingleImage_padding_witness :
  convertSingleImage manager (list_byte_of_string "abc") (emoteUnit loadFails)
  = convertSingleImage manager (list_byte_of_string "abc") (paddedUnit (-3)).
Proof.
  apply convertSingleImage_padding. right. split; vm_compute; discriminate.
Defined.

(** X27, witness: thresholds 10 and 60, clock readings 100 and 90. *)
Lemma CleanupOldImagesCommand_monotone_witness :
  globalPlacedImages (CleanupOldImagesCommand manager 100 10 restarted).2
  ⊆ globalPlacedImages (CleanupOldImagesCommand manager 90 60 restarted).2.
Proof.
  apply (CleanupOldImagesCommand_monotone manager 100 90 10 60 restarted); lia.
Defined.

(** X28, witness: converted at 100, cleaned up at 130 with threshold 60. *)
Lemma Convert_then_cleanup_keeps_witness :
  ∃ i, globalPlacedImages
         (CleanupOldImagesCommand manager 130 60
            (Convert manager 100 (emoteUnit (loadOK "abc")) (fresh noFault)).2).2
         !! "ffz.1" = Some (anyDecodedImage i)
       ∧ lastUsed i = 100.
Proof.
  pose (run := Convert manager 100 (emoteUnit (loadOK "abc")) (fresh noFault)).
  assert (Hrun : run = ((run.1.1, None), run.2)) by (vm_compute; reflexivity).
  destruct (Convert_then_cleanup_keeps manager 100 130 60
              (emoteUnit (loadOK "abc")) (fresh noFault) run.1.1 run.2 Hrun)
    as (i & Hkept & Hused & _).
  - vm_compute. discriminate.
  - exists i. split; [exact Hkept|exact Hused].
Defined.

End OnFixture.

(** X23 on the decoder that finds no frames. *)
Example convertImageBytes_no_frames_example :
  convertImageBytes (Ext := sixelfixture2.extNoFrames)
    (@Build_DisplayManager sixelfixture2.extNoFrames 1 20)
    (list_byte_of_string "abc") (sixelfixture.emoteUnit sixelfixture.loadFails)
    "image/avif"
  = (inl (ErrNew "avif has no frames"), []).
Proof. reflexivity. Qed.

End SixelMore.
